(** * Session and room synchronisation of the learning hub

    A shallow embedding of [src/contexts/AuthContext.tsx] (module [AuthContext]) and of
    [src/pages/RoomPage.tsx] (module [RoomPage]).

    Both files are React components: a handful of state cells, asynchronous
    handlers that suspend at every [await], and effects with a cleanup.  Each
    component is embedded as a record of its state cells together with what the
    outside world holds on its behalf (pending promises, timers, realtime
    channels, the requests issued so far), and a function [step] that runs one
    piece of code to its next suspension point.  An [Event] is what the
    JavaScript event loop can hand to the component: a promise settling, a
    timer becoming due, a realtime notification, a user gesture. *)

From Stdlib Require Import List String Ascii ZArith NArith Bool Lia Permutation.
From coqutil Require Import Datatypes.RecordSetters.
Import ListNotations.
Import TriangleBracketNotations.
Local Open Scope string_scope.
Local Open Scope list_scope.

(** ** JavaScript values shared by both components *)

(** A thrown or rejected value, as the [catch] blocks look at it: [undefined]
    or [null], or a value with its [message] property when it has one and
    what string concatenation turns it into. *)
Inductive JsError :=
| Thrown (message : option string) (to_string : string)
| Nullish (is_null : bool).

(** [err?.message] *)
Definition message (err : JsError) : option string :=
  match err with
  | Thrown m _ => m
  | Nullish _ => None
  end.

(** [String(err)] *)
Definition to_string (err : JsError) : string :=
  match err with
  | Thrown _ text => text
  | Nullish true => "null"
  | Nullish false => "undefined"
  end.

(** [err.message] throws a [TypeError] on these. *)
Definition nullish (err : JsError) : bool :=
  match err with
  | Thrown _ _ => false
  | Nullish _ => true
  end.

(** [err?.message || err] inside a string concatenation. *)
Definition describe (err : JsError) : string :=
  match message err with
  | Some m => if (m =? "")%string then to_string err else m
  | None => to_string err
  end.

(** [new Error(msg)] *)
Definition new_Error (msg : string) : JsError :=
  Thrown (Some msg)
    (if (msg =? "")%string then "Error" else ("Error: " ++ msg)%string).

(** How an awaited promise ends. *)
Inductive Settled (A : Type) : Type :=
| Fulfilled (value : A)
| Rejected (reason : JsError).
Arguments Fulfilled {A} value.
Arguments Rejected {A} reason.

(** The [User] of supabase-js; the components read its [id] only ([uid]
    here, the records below have an [id] of their own). *)
Record User := { uid : string }.

Definition count_if {A : Type} (p : A -> bool) (l : list A) : nat :=
  List.length (filter p l).

(** ** AuthContext.tsx *)
Module AuthContext.

(** [UserProfile] is declared in [lib/auth]; the fields are those of the
    profile record of the data model. *)
Record UserProfile := {
  id : string;
  username : string;
  full_name : option string;
  avatar_url : option string;
  created_at : string
}.

Record Session := { session_user : User }.

(** The result object of [supabase.auth.getSession()]:
    [{ data: { session }, error }]; [response_error] is the error object when
    there is one. *)
Record SessionResponse := {
  data_session : option Session;
  response_error : option JsError
}.

(** [AuthChangeEvent] of supabase-js. *)
Inductive AuthChangeEvent :=
| INITIAL_SESSION | PASSWORD_RECOVERY | SIGNED_IN | SIGNED_OUT
| TOKEN_REFRESHED | USER_UPDATED | MFA_CHALLENGE_VERIFIED.

Definition is_SIGNED_IN (e : AuthChangeEvent) : bool :=
  match e with SIGNED_IN => true | _ => false end.

(** Which call site of [fetchProfile] issued a request: line 108 ([initAuth])
    or line 135 (the auth listener). *)
Inductive Origin := FromInit | FromListener.

(** Network requests the provider issues. *)
Inductive Request :=
| GetSession
| CreateOrUpdateProfile (from : Origin) (u : User)
| GetProfile (userId : string)
| SupabaseSignOut.

Definition is_GetSession (r : Request) : bool :=
  match r with GetSession => true | _ => false end.

Definition is_init_profile (r : Request) : bool :=
  match r with CreateOrUpdateProfile FromInit _ => true | _ => false end.

(** Where the asynchronous [initAuth] is suspended. *)
Inductive InitPhase :=
| NotStarted
| AwaitingSession        (* at [await supabase.auth.getSession()] *)
| AwaitingProfile        (* at [await fetchProfile(currentUser)] *)
| Completed.

Record State := {
  (* the four [useState] cells, exposed as the context value *)
  user : option User;
  profile : option UserProfile;
  loading : bool;
  error : option string;
  (* [useRef(false)] *)
  initialized : bool;
  (* the event loop: a clock in milliseconds, the armed init timeout (its due
     time), the zero-delay tasks queued by the listener *)
  clock : Z;
  timeoutId : option Z;
  deferred : list User;
  (* the auth listener is registered; the effect returned a cleanup *)
  subscription : bool;
  cleanup : bool;
  (* suspended asynchronous calls *)
  initAuth : InitPhase;
  resolving : nat;     (* [fetchProfile] calls of the listener *)
  refreshing : nat;    (* [refreshProfile] calls *)
  signingOut : nat;    (* [signOut] calls *)
  (* what went out *)
  requests : list Request;
  console : list string
}.

Definition initial (t0 : Z) : State := {|
  user := None; profile := None; loading := true; error := None;
  initialized := false;
  clock := t0; timeoutId := None; deferred := [];
  subscription := false; cleanup := false;
  initAuth := NotStarted; resolving := 0; refreshing := 0; signingOut := 0;
  requests := []; console := []
|}.

Definition timeout_delay : Z := 30000.
Definition timeout_message : string :=
  "Authentication timed out. Please refresh the page.".
Definition timeout_log : string :=
  "[AuthContext] Auth initialization timed out".

Definition say (line : string) (s : State) : State :=
  s<|console ::= fun c => c ++ [line]|>.

Definition request (r : Request) (s : State) : State :=
  s<|requests ::= fun q => q ++ [r]|>.

Definition currentUser (session : option Session) : option User :=
  option_map session_user session.

(** [fetchProfile], up to its [await]. *)
Definition fetchProfile_call (from : Origin) (u : User) (s : State) : State :=
  request (CreateOrUpdateProfile from u) s.

(** The [catch] block of [fetchProfile]. *)
Definition fetchProfile_catch (err : JsError) (s : State) : State :=
  (say "[AuthContext] Profile error:" s)
    <|profile := None|>
    <|error := Some ("Failed to load profile: " ++ describe err)%string|>.

(** [fetchProfile], from its [await] on. *)
Definition fetchProfile_resume
    (r : Settled (option UserProfile)) (s : State) : State :=
  match r with
  | Fulfilled (Some userProfile) =>
      s<|profile := Some userProfile|><|error := None|>
  | Fulfilled None =>
      fetchProfile_catch (new_Error "Failed to create/update profile") s
  | Rejected err => fetchProfile_catch err s
  end.

(** The callback handed to [setTimeout(..., 30000)]. *)
Definition on_timeout (s : State) : State :=
  (say timeout_log s)<|error := Some timeout_message|><|loading := false|>.

(** The [catch] block of [initAuth]. *)
Definition initAuth_catch (err : JsError) (s : State) : State :=
  (say "[AuthContext] Init error:" s)
    <|user := None|><|profile := None|>
    <|error := Some ("Authentication failed: " ++ describe err)%string|>
    <|timeoutId := None|>
    <|loading := false|>
    <|initAuth := Completed|>.

(** The last three statements of the [try] block of [initAuth]. *)
Definition initAuth_finish (s : State) : State :=
  (say "[Auth] Auth initialization complete"
     (s<|timeoutId := None|><|loading := false|>))
    <|initAuth := Completed|>.

(** [initAuth], up to [await supabase.auth.getSession()]. *)
Definition initAuth_call (s : State) : State :=
  (request GetSession
     ((say "[Auth] Initializing auth..." s)
        <|timeoutId := Some (clock s + timeout_delay)%Z|>))
    <|initAuth := AwaitingSession|>.

(** [initAuth], from the session on. *)
Definition initAuth_session (r : Settled SessionResponse) (s : State) : State :=
  match r with
  | Rejected err => initAuth_catch err s
  | Fulfilled resp =>
      match response_error resp with
      | Some err => initAuth_catch err s
      | None =>
          let s1 := s<|user := currentUser (data_session resp)|> in
          match currentUser (data_session resp) with
          | Some u => (fetchProfile_call FromInit u s1)<|initAuth := AwaitingProfile|>
          | None => initAuth_finish s1
          end
      end
  end.

(** The callback handed to [onAuthStateChange]. *)
Definition onAuthStateChange
    (event : AuthChangeEvent) (session : option Session) (s : State) : State :=
  let s1 := (say "[Auth] Auth state changed:" s)<|user := currentUser session|> in
  let s2 :=
    match currentUser session with
    | Some u =>
        if is_SIGNED_IN event
        then s1<|deferred ::= fun q => q ++ [u]|>
        else s1
    | None => s1<|profile := None|>
    end in
  if initialized s2 then s2<|loading := false|> else s2.

(** The body of the effect. *)
Definition effect (s : State) : State :=
  if initialized s then s<|cleanup := false|>
  else
    initAuth_call
      (s<|initialized := true|><|subscription := true|><|cleanup := true|>).

(** The function the effect returns. *)
Definition effect_cleanup (s : State) : State :=
  if cleanup s
  then s<|subscription := false|><|timeoutId := None|><|cleanup := false|>
  else s.

Definition refreshProfile_call (s : State) : State :=
  match user s with
  | Some u => (request (GetProfile (uid u)) s)<|refreshing ::= S|>
  | None => s
  end.

Definition refreshProfile_resume
    (r : Settled (option UserProfile)) (s : State) : State :=
  match r with
  | Fulfilled freshProfile => s<|profile := freshProfile|><|error := None|>
  | Rejected err =>
      (say "[AuthContext] Error refreshing profile:" s)
        <|error := Some ("Failed to refresh profile: " ++ describe err)%string|>
  end.

Definition signOut_call (s : State) : State :=
  (request SupabaseSignOut s)<|signingOut ::= S|>.

(** [signOut] after [await supabaseSignOut()]: a rejection leaves the function
    at the [await]. *)
Definition signOut_resume (r : Settled unit) (s : State) : State :=
  match r with
  | Fulfilled _ => s<|user := None|><|profile := None|>
  | Rejected _ => s
  end.

Inductive Event :=
| Mount                                   (* React runs the effect *)
| Unmount                                 (* React runs its cleanup *)
| Tick                                    (* one millisecond passes *)
| SessionSettled (r : Settled SessionResponse)
| InitProfileSettled (r : Settled (option UserProfile))
| AuthStateChange (event : AuthChangeEvent) (session : option Session)
| RunDeferred                             (* a zero-delay task runs *)
| ListenerProfileSettled (r : Settled (option UserProfile))
| CallRefreshProfile
| RefreshSettled (r : Settled (option UserProfile))
| CallSignOut
| SignOutSettled (r : Settled unit).

Definition tick (s : State) : State :=
  let s1 := s<|clock ::= fun t => (t + 1)%Z|> in
  match timeoutId s1 with
  | Some due =>
      if (due <=? clock s1)%Z then on_timeout (s1<|timeoutId := None|>) else s1
  | None => s1
  end.

(** One event.  An event the event loop cannot produce in [s] (a promise
    settling that nobody awaits, a notification without a listener) leaves [s]
    as it is. *)
Definition step (s : State) (e : Event) : State :=
  match e with
  | Mount => effect s
  | Unmount => effect_cleanup s
  | Tick => tick s
  | SessionSettled r =>
      match initAuth s with
      | AwaitingSession => initAuth_session r s
      | _ => s
      end
  | InitProfileSettled r =>
      match initAuth s with
      | AwaitingProfile => initAuth_finish (fetchProfile_resume r s)
      | _ => s
      end
  | AuthStateChange event session =>
      if subscription s then onAuthStateChange event session s else s
  | RunDeferred =>
      match deferred s with
      | u :: rest =>
          (fetchProfile_call FromListener u (s<|deferred := rest|>))
            <|resolving ::= S|>
      | [] => s
      end
  | ListenerProfileSettled r =>
      match resolving s with
      | S n => fetchProfile_resume r (s<|resolving := n|>)
      | O => s
      end
  | CallRefreshProfile => refreshProfile_call s
  | RefreshSettled r =>
      match refreshing s with
      | S n => refreshProfile_resume r (s<|refreshing := n|>)
      | O => s
      end
  | CallSignOut => signOut_call s
  | SignOutSettled r =>
      match signingOut s with
      | S n => signOut_resume r (s<|signingOut := n|>)
      | O => s
      end
  end.

Definition run (s : State) (es : list Event) : State := fold_left step es s.

Definition is_Mount (e : Event) : bool :=
  match e with Mount => true | _ => false end.



(** The timeout callback has run. *)
Definition timed_out (s : State) : bool :=
  existsb (String.eqb timeout_log) (console s).


Definition init_line : string := "[Auth] Initializing auth...".

(** What the single-shot guard maintains. *)
Record guard_inv (s : State) : Prop := {
  gi_phase : initialized s = match initAuth s with NotStarted => false | _ => true end;
  gi_lines : count_if (String.eqb init_line) (console s) = if initialized s then 1 else 0;
  gi_session : count_if is_GetSession (requests s) = if initialized s then 1 else 0;
  gi_profile :
    count_if is_init_profile (requests s) <=
      match initAuth s with NotStarted | AwaitingSession => 0 | _ => 1 end
}.




(** The context value. *)
Definition value (s : State)
  : option User * option UserProfile * bool * option string :=
  (user s, profile s, loading s, error s).

(** *** Further notions about the provider *)

Definition is_listener_profile (r : Request) : bool :=
  match r with CreateOrUpdateProfile FromListener _ => true | _ => false end.

(** A [SIGNED_IN] notification that carries a session. *)
Definition is_sign_in (e : Event) : bool :=
  match e with
  | AuthStateChange SIGNED_IN (Some _) => true
  | _ => false
  end.

(** The shapes the [error] cell can take: unset, the timeout message, or one
    of the three messages the [catch] blocks build. *)
Definition known_error (e : option string) : bool :=
  match e with
  | None => true
  | Some m =>
      (m =? timeout_message)%string
      || String.prefix "Authentication failed: " m
      || String.prefix "Failed to load profile: " m
      || String.prefix "Failed to refresh profile: " m
  end.

(** What holds once [initAuth] is past its start. *)
Record done_inv (s : State) : Prop := {
  di_started : initAuth s <> NotStarted -> initialized s = true;
  di_loading : initAuth s = Completed -> loading s = false;
  di_timer : initAuth s = Completed -> timeoutId s = None
}.

(** After the cleanup of the effect: the guard of line 81 keeps the effect
    from registering the listener or arming the timeout again. *)
Record torn_down (s : State) : Prop := {
  td_initialized : initialized s = true;
  td_listener : subscription s = false;
  td_timer : timeoutId s = None;
  td_cleanup : cleanup s = false
}.

End AuthContext.

(** ** RoomPage.tsx *)
Module RoomPage.

(** A JavaScript string as its UTF-16 code units; used where the code looks
    inside a string ([trim], template literals). *)
Definition jsstring := list N.

Definition code_units (s : string) : jsstring :=
  map N_of_ascii (list_ascii_of_string s).

(** WhiteSpace and LineTerminator of ECMAScript, which [trim] strips. *)
Definition is_white_space (c : N) : bool :=
  existsb (N.eqb c)
    [9; 10; 11; 12; 13; 32; 160; 5760; 8232; 8233; 8239; 8287; 12288; 65279]%N
  || ((8192 <=? c) && (c <=? 8202))%N.

Fixpoint trimStart (s : jsstring) : jsstring :=
  match s with
  | c :: rest => if is_white_space c then trimStart rest else s
  | [] => []
  end.

Definition trimEnd (s : jsstring) : jsstring := rev (trimStart (rev s)).

Definition trim (s : jsstring) : jsstring := trimEnd (trimStart s).

(** [!s] for a string [s]. *)
Definition not_string (s : jsstring) : bool :=
  match s with [] => true | _ :: _ => false end.

(** [!roomId] for [roomId : string | undefined]. *)
Definition not_id (rid : option string) : bool :=
  match rid with
  | Some r => (r =? "")%string
  | None => true
  end.

(** The types of [lib/rooms], with the fields of the data model.  [Message]
    keeps the source's field names; the other two are prefixed. *)
Record Room := {
  room_ident : string;
  room_name : string;
  room_subject : string;
  room_description : option string;
  room_creator_id : string;
  room_max_members : Z;
  room_created_at : string
}.

(** What [.select('full_name, avatar_url')] returns. *)
Record Profile := {
  full_name : option string;
  avatar_url : option string
}.

Inductive Role := admin | member.

Record RoomMember := {
  member_ident : string;
  member_room_id : string;
  member_user_id : string;
  member_role : Role;
  member_joined_at : string;
  member_profile : option Profile
}.

Record Message := {
  id : string;
  room_id : string;
  user_id : string;
  content : jsstring;
  created_at : string;
  profile : option Profile
}.

(** What awaiting a postgrest-js query yields: [{ data, error }].  The
    builder turns a failed request into an [error] with [data: null]; it does
    not reject. *)
Record SingleResponse := {
  data : option Profile;
  response_error : option JsError
}.

(** The four reads of [loadRoomData], each as it settles. *)
Record Snapshot := {
  roomData : Settled (option Room);
  membersData : Settled (list RoomMember);
  messagesData : Settled (list Message);
  membershipStatus : Settled bool
}.

(** [Promise.all] over the four reads.  A rejection of any read rejects the
    whole; the [catch] block does not look at the reason, the one reported
    here is the first in array order. *)
Definition promise_all (r : Snapshot)
  : Settled (option Room * list RoomMember * list Message * bool) :=
  match roomData r, membersData r, messagesData r, membershipStatus r with
  | Fulfilled a, Fulfilled b, Fulfilled c, Fulfilled d => Fulfilled (a, b, c, d)
  | Rejected e, _, _, _ => Rejected e
  | _, Rejected e, _, _ => Rejected e
  | _, _, Rejected e, _ => Rejected e
  | _, _, _, Rejected e => Rejected e
  end.

(** The two realtime channels of a room, [messages-${roomId}] and
    [members-${roomId}], each filtered on [room_id=eq.${roomId}]. *)
Inductive Channel :=
| MessagesChannel (rid : string)
| MembersChannel (rid : string).

Definition topic (c : Channel) : string :=
  match c with
  | MessagesChannel rid => "messages-" ++ rid
  | MembersChannel rid => "members-" ++ rid
  end%string.

Definition channel_eqb (a b : Channel) : bool :=
  match a, b with
  | MessagesChannel x, MessagesChannel y => (x =? y)%string
  | MembersChannel x, MembersChannel y => (x =? y)%string
  | _, _ => false
  end.

(** Calls on the realtime client. *)
Inductive RealtimeCall :=
| Subscribe (c : Channel)
| RemoveChannel (c : Channel).

Fixpoint remove_one (c : Channel) (l : list Channel) : list Channel :=
  match l with
  | x :: rest => if channel_eqb c x then rest else x :: remove_one c rest
  | [] => []
  end.

Definition remove_channels (cs l : list Channel) : list Channel :=
  fold_left (fun acc c => remove_one c acc) cs l.

(** The [n]-th of the pending calls and the others. *)
Fixpoint take_nth {A : Type} (n : nat) (l : list A) : option (A * list A) :=
  match l, n with
  | [], _ => None
  | x :: rest, O => Some (x, rest)
  | x :: rest, S k =>
      match take_nth k rest with
      | Some (y, others) => Some (y, x :: others)
      | None => None
      end
  end.

Record File := { file_name : string }.

Record State := {
  (* [useParams], [useAuth] *)
  roomId : option string;
  user : option User;
  (* the [useState] cells *)
  room : option Room;
  members : list RoomMember;
  messages : list Message;
  newMessage : jsstring;
  isMember : bool;
  loading : bool;
  sendingMessage : bool;
  uploadingFile : bool;
  (* React: the component is mounted; the cleanup the subscription effect
     returned on its last run (the channels it removes) *)
  mounted : bool;
  unsubscribe : option (list Channel);
  (* the realtime client: the channels it holds, the calls it received *)
  channels : list Channel;
  realtime : list RealtimeCall;
  (* suspended asynchronous calls *)
  loads : nat;                 (* [loadRoomData] at [Promise.all] *)
  lookups : list Message;      (* INSERT handlers at the profile lookup *)
  reloads : nat;               (* member handlers at [getRoomMembers] *)
  sending : nat;               (* [handleSendMessage] at [sendMessage] *)
  uploads : list string;       (* [handleFileUpload] at [uploadChatMedia], with its [roomId] *)
  imageSends : nat;            (* [handleFileUpload] at [sendMessage] *)
  joins : nat;
  leaves : nat;
  (* what went out *)
  sent : list (string * jsstring);   (* [sendMessage(roomId, content)] *)
  toasts : list string;
  navigations : list string
}.

Definition initial (rid : option string) (u : option User) : State := {|
  roomId := rid; user := u;
  room := None; members := []; messages := []; newMessage := [];
  isMember := false; loading := true; sendingMessage := false;
  uploadingFile := false;
  mounted := false; unsubscribe := None;
  channels := []; realtime := [];
  loads := 0; lookups := []; reloads := 0; sending := 0; uploads := [];
  imageSends := 0; joins := 0; leaves := 0;
  sent := []; toasts := []; navigations := []
|}.

Definition toast (title : string) (s : State) : State :=
  s<|toasts ::= fun l => l ++ [title]|>.

Definition navigate (to : string) (s : State) : State :=
  s<|navigations ::= fun l => l ++ [to]|>.

Definition sendMessage (rid : string) (text : jsstring) (s : State) : State :=
  s<|sent ::= fun l => l ++ [(rid, text)]|>.

(** *** Loading the snapshot (lines 58-98) *)

Definition loadRoomData_call (s : State) : State :=
  if not_id (roomId s) then s
  else
    match user s with
    | None => s
    | Some _ => s<|loading := true|><|loads ::= S|>
    end.

Definition loadRoomData_resume (r : Snapshot) (s : State) : State :=
  let s1 :=
    match promise_all r with
    | Fulfilled (None, _, _, _) => navigate "/home" (toast "Room not found" s)
    | Fulfilled (Some rd, ms, msgs, status) =>
        s<|room := Some rd|><|members := ms|><|messages := msgs|>
         <|isMember := status|>
    | Rejected _ => toast "Error" s
    end in
  s1<|loading := false|>.

(** *** The realtime subscriptions (lines 101-156) *)

Definition room_channels (rid : string) : list Channel :=
  [MessagesChannel rid; MembersChannel rid].

(** The body of the effect. *)
Definition subscription_effect (s : State) : State :=
  if not_id (roomId s) || negb (isMember s) then s<|unsubscribe := None|>
  else
    match roomId s with
    | Some rid =>
        s<|channels ::= fun l => l ++ room_channels rid|>
         <|realtime ::= fun l => l ++ map Subscribe (room_channels rid)|>
         <|unsubscribe := Some (room_channels rid)|>
    | None => s<|unsubscribe := None|>
    end.

(** The function the effect returned. *)
Definition subscription_cleanup (s : State) : State :=
  match unsubscribe s with
  | Some cs =>
      s<|channels ::= remove_channels cs|>
       <|realtime ::= fun l => l ++ map RemoveChannel cs|>
       <|unsubscribe := None|>
  | None => s
  end.

(** The updater the INSERT handler gives to [setMessages]:
    [prev => [...prev, { ...newMessage, profile: profileData || undefined }]]. *)
Definition insert_updater
    (newMessage : Message) (profileData : option Profile)
    (prev : list Message) : list Message :=
  prev ++ [newMessage<|profile := profileData|>].

(** The INSERT handler from its [await] on. *)
Definition on_insert_resume
    (newMessage : Message) (r : SingleResponse) (s : State) : State :=
  s<|messages ::= insert_updater newMessage (data r)|>.

Definition same_id (a b : option string) : bool :=
  match a, b with
  | Some x, Some y => (x =? y)%string
  | None, None => true
  | _, _ => false
  end.

(** What React does after the render that follows a handler: of the effects
    whose dependencies changed, the cleanups run, then the bodies in source
    order.  The loading effect depends on [roomId] and [user] ([navigate] and
    [toast] are taken to be stable), the subscription effect on [roomId] and
    [isMember].  [user_changed] says that [useAuth] handed over another user
    object. *)
Definition commit (user_changed : bool) (before after : State) : State :=
  if mounted after then
    let room_changed := negb (same_id (roomId before) (roomId after)) in
    let resubscribe :=
      room_changed || negb (Bool.eqb (isMember before) (isMember after)) in
    let reload := room_changed || user_changed in
    let s1 := if resubscribe then subscription_cleanup after else after in
    let s2 := if reload then loadRoomData_call s1 else s1 in
    if resubscribe then subscription_effect s2 else s2
  else after.

(** *** Sending (lines 158-217) *)

Definition handleSendMessage_call (s : State) : State :=
  if not_string (trim (newMessage s)) || not_id (roomId s) || sendingMessage s
  then s
  else
    match roomId s with
    | Some rid =>
        (sendMessage rid (newMessage s) (s<|sendingMessage := true|>))
          <|sending ::= S|>
    | None => s
    end.

Definition handleSendMessage_resume
    (r : Settled (option Message)) (s : State) : State :=
  let s1 :=
    match r with
    | Fulfilled (Some _) => s<|newMessage := []|>
    | Fulfilled None => toast "Error" s
    | Rejected _ => toast "Error" s
    end in
  s1<|sendingMessage := false|>.

(** The template literal of line 195: a camera emoji (one surrogate pair),
    then [ [Image](${fileUrl})]. *)
Definition image_content (fileUrl : jsstring) : jsstring :=
  [55357; 56567]%N ++ code_units " [Image](" ++ fileUrl ++ code_units ")".

Definition handleFileUpload_call (file : option File) (s : State) : State :=
  match file, roomId s, user s with
  | Some _, Some rid, Some _ =>
      if (rid =? "")%string then s
      else s<|uploadingFile := true|><|uploads ::= fun l => l ++ [rid]|>
  | _, _, _ => s
  end.

(** The [catch] blocks of [handleFileUpload] and [handleJoinRoom] read
    [error.message] while building the toast: on [undefined] or [null] that
    throws, and no toast is shown. *)
Definition toast_reading_message (title : string) (error : JsError) (s : State)
  : State :=
  if nullish error then s else toast title s.

(** [handleFileUpload] from [await uploadChatMedia(...)] on; it returns through
    [finally] unless it suspends again at [sendMessage]. *)
Definition handleFileUpload_uploaded
    (rid : string) (r : Settled (option jsstring)) (s : State) : State :=
  match r with
  | Fulfilled (Some (c :: url)) =>
      (sendMessage rid (image_content (c :: url)) s)<|imageSends ::= S|>
  | Fulfilled _ => s<|uploadingFile := false|>
  | Rejected error =>
      (toast_reading_message "Upload failed" error s)<|uploadingFile := false|>
  end.

Definition handleFileUpload_resume
    (r : Settled (option Message)) (s : State) : State :=
  let s1 :=
    match r with
    | Fulfilled (Some _) => s
    | Fulfilled None => toast "Error" s
    | Rejected error => toast_reading_message "Upload failed" error s
    end in
  s1<|uploadingFile := false|>.

(** *** Joining and leaving (lines 219-255) *)

Definition handleJoinRoom_call (s : State) : State :=
  if not_id (roomId s) then s else s<|joins ::= S|>.

Definition handleJoinRoom_resume (r : Settled unit) (s : State) : State :=
  match r with
  | Fulfilled _ => toast "Joined room!" (s<|isMember := true|>)
  | Rejected error => toast_reading_message "Failed to join" error s
  end.

Definition handleLeaveRoom_call (s : State) : State :=
  if not_id (roomId s) then s else s<|leaves ::= S|>.

Definition handleLeaveRoom_resume (r : Settled unit) (s : State) : State :=
  match r with
  | Fulfilled _ => navigate "/home" (toast "Left room" s)
  | Rejected _ => toast "Error" s
  end.

Inductive Event :=
| Mount                                     (* first render, both effects run *)
| Unmount                                   (* the cleanup runs *)
| Navigate (rid : option string)            (* the route parameter changes *)
| AuthChanged (u : option User)             (* [useAuth] hands over another user *)
| SnapshotSettled (r : Snapshot)
| MessageInserted (payload_new : Message)   (* an INSERT notification *)
| LookupSettled (n : nat) (r : SingleResponse)
| MembersChanged (rid : string)             (* a [room_members] notification *)
| MembersSettled (r : Settled (list RoomMember))
| Typed (text : jsstring)                   (* [onChange] of the input *)
| Send                                      (* click on send, or Enter *)
| SendSettled (r : Settled (option Message))
| FileChosen (file : option File)
| UploadSettled (n : nat) (r : Settled (option jsstring))
| ImageSendSettled (r : Settled (option Message))
| Join
| JoinSettled (r : Settled unit)
| Leave
| LeaveSettled (r : Settled unit).

(** The handler an event runs, to its next suspension point.  A gesture on an
    unmounted component, a notification on a channel the client does not hold
    and a settlement nobody awaits leave the state as it is. *)
Definition handle (s : State) (e : Event) : State :=
  match e with
  | Mount =>
      if mounted s then s
      else subscription_effect (loadRoomData_call (s<|mounted := true|>))
  | Unmount =>
      if mounted s then (subscription_cleanup s)<|mounted := false|> else s
  | Navigate rid => if mounted s then s<|roomId := rid|> else s
  | AuthChanged u => if mounted s then s<|user := u|> else s
  | SnapshotSettled r =>
      match loads s with
      | S n => loadRoomData_resume r (s<|loads := n|>)
      | O => s
      end
  | MessageInserted m =>
      if existsb (channel_eqb (MessagesChannel (room_id m))) (channels s)
      then s<|lookups ::= fun l => l ++ [m]|>
      else s
  | LookupSettled n r =>
      match take_nth n (lookups s) with
      | Some (m, others) => on_insert_resume m r (s<|lookups := others|>)
      | None => s
      end
  | MembersChanged rid =>
      if existsb (channel_eqb (MembersChannel rid)) (channels s)
      then s<|reloads ::= S|>
      else s
  | MembersSettled r =>
      match reloads s with
      | S n =>
          match r with
          | Fulfilled membersData => s<|reloads := n|><|members := membersData|>
          | Rejected _ => s<|reloads := n|>
          end
      | O => s
      end
  | Typed text => if mounted s then s<|newMessage := text|> else s
  | Send => if mounted s then handleSendMessage_call s else s
  | SendSettled r =>
      match sending s with
      | S n => handleSendMessage_resume r (s<|sending := n|>)
      | O => s
      end
  | FileChosen file => if mounted s then handleFileUpload_call file s else s
  | UploadSettled n r =>
      match take_nth n (uploads s) with
      | Some (rid, others) => handleFileUpload_uploaded rid r (s<|uploads := others|>)
      | None => s
      end
  | ImageSendSettled r =>
      match imageSends s with
      | S n => handleFileUpload_resume r (s<|imageSends := n|>)
      | O => s
      end
  | Join => if mounted s then handleJoinRoom_call s else s
  | JoinSettled r =>
      match joins s with
      | S n => handleJoinRoom_resume r (s<|joins := n|>)
      | O => s
      end
  | Leave => if mounted s then handleLeaveRoom_call s else s
  | LeaveSettled r =>
      match leaves s with
      | S n => handleLeaveRoom_resume r (s<|leaves := n|>)
      | O => s
      end
  end.

Definition is_AuthChanged (e : Event) : bool :=
  match e with AuthChanged _ => true | _ => false end.

Definition is_Mount (e : Event) : bool :=
  match e with Mount => true | _ => false end.

(** One event: its handler, then the effects React re-runs.  [Mount] and
    [Unmount] run the effects themselves. *)
Definition step (s : State) (e : Event) : State :=
  match e with
  | Mount | Unmount => handle s e
  | _ => commit (is_AuthChanged e && mounted s) s (handle s e)
  end.

Definition run (s : State) (es : list Event) : State := fold_left step es s.

(** The messages are in ascending order of [created_at]. *)
Fixpoint ascending (l : list Message) : bool :=
  match l with
  | a :: (b :: _) as rest => String.leb (created_at a) (created_at b) && ascending rest
  | _ => true
  end.

Definition has_id (i : string) (m : Message) : bool := (id m =? i)%string.

(** The calls a step makes on the realtime client. *)
Definition realtime_calls (s : State) (e : Event) : list RealtimeCall :=
  skipn (List.length (realtime s)) (realtime (step s e)).

(** [sendMessage] calls not yet settled. *)
Definition in_flight (s : State) : nat := sending s + imageSends s.

(** Empty or white space only. *)
Definition blank (text : jsstring) : bool := forallb is_white_space text.

Definition rejected {A : Type} (r : Settled A) : bool :=
  match r with Rejected _ => true | Fulfilled _ => false end.

(** One of the four reads failed. *)
Definition any_rejected (r : Snapshot) : bool :=
  rejected (roomData r) || rejected (membersData r)
  || rejected (messagesData r) || rejected (membershipStatus r).

(** The notification for [m] is delivered to the client in state [s]. *)
Definition delivered (s : State) (m : Message) : bool :=
  existsb (channel_eqb (MessagesChannel (room_id m))) (channels s).

(** Live messages reaching the page one after the other: each INSERT
    notification, then the answer to its profile lookup. *)
Definition live (arrivals : list (Message * SingleResponse)) : list Event :=
  flat_map (fun a => [MessageInserted (fst a); LookupSettled 0 (snd a)]) arrivals.

Definition as_merged (a : Message * SingleResponse) : Message :=
  (fst a)<|profile := data (snd a)|>.

(** The six orders in which three things can arrive. *)
Definition orders {A : Type} (a b c : A) : list (list A) :=
  [[a; b; c]; [a; c; b]; [b; a; c]; [b; c; a]; [c; a; b]; [c; b; a]].

(** What the subscription effect and its cleanup maintain: the client holds
    the channels the pending cleanup will remove and no other, and these are
    the two channels of the current room, opened for a mounted page whose
    [isMember] is [true]. *)
Definition gate (s : State) : Prop :=
  match unsubscribe s with
  | Some cs =>
      mounted s = true /\ isMember s = true
      /\ (exists rid, roomId s = Some rid /\ cs = room_channels rid)
      /\ channels s = cs
  | None => channels s = []
  end.

(** The calls of a step on the realtime client: every channel held before is
    removed, then the channels held afterwards are subscribed. *)
Definition rewired (s s' : State) : Prop :=
  realtime s' =
    realtime s ++ map RemoveChannel (channels s) ++ map Subscribe (channels s').

(** What the guard of [handleSendMessage] maintains. *)
Record send_inv (s : State) : Prop := {
  si_flag : sending s = if sendingMessage s then 1 else 0;
  si_text : Forall (fun call => blank (snd call) = false) (sent s)
}.

(** The cells and counters no effect writes, and those only effects write. *)
Definition core (s : State) :=
  (roomId s, user s, room s, members s, messages s, newMessage s, isMember s,
   sendingMessage s, uploadingFile s, mounted s, lookups s, reloads s,
   sending s, uploads s, imageSends s, joins s, leaves s, sent s, toasts s,
   navigations s).

Definition wiring (s : State) :=
  (mounted s, unsubscribe s, channels s, realtime s).

(** The part of [gate] the cleanup relies on. *)
Definition held (s : State) : Prop :=
  match unsubscribe s with
  | Some cs => (exists rid, cs = room_channels rid) /\ channels s = cs
  | None => channels s = []
  end.

(** *** Rendering (lines 266-321 and the returned JSX) *)

(** [s.startsWith(p)] and [s.includes(p)] on code units. *)
Fixpoint starts_with (p s : jsstring) : bool :=
  match p, s with
  | [], _ => true
  | _ :: _, [] => false
  | a :: p', b :: s' => (a =? b)%N && starts_with p' s'
  end.

Fixpoint includes (s p : jsstring) : bool :=
  starts_with p s
  || match s with
     | [] => false
     | _ :: rest => includes rest p
     end.

(** The longest run of code units other than [)] at the head of [s], and what
    follows it: what the greedy [[^)]+] of the regular expression takes. *)
Fixpoint span_not_close (s : jsstring) : jsstring * jsstring :=
  match s with
  | c :: rest =>
      if (c =? 41)%N then ([], s)
      else let (taken, after) := span_not_close rest in (c :: taken, after)
  | [] => ([], [])
  end.

(** [content.match(/\(([^)]+)\)/)?.[1]]: at the leftmost [(] that is followed
    by at least one code unit other than [)] and then by a [)], the code units
    in between. *)
Fixpoint match_group (s : jsstring) : option jsstring :=
  match s with
  | [] => None
  | c :: rest =>
      if (c =? 40)%N then
        match span_not_close rest with
        | (x :: taken, _ :: _) => Some (x :: taken)
        | _ => match_group rest
        end
      else match_group rest
  end.

(** [value || fallback] for an optional string. *)
Definition or_else (value : option string) (fallback : string) : string :=
  match value with
  | Some v => if (v =? "")%string then fallback else v
  | None => fallback
  end.

(** What a message bubble shows. *)
Inductive Body :=
| Picture (src : option jsstring)     (* the image branch; [src] when a URL was found *)
| Text (text : jsstring).

Record Bubble := {
  key : string;
  isOwn : bool;
  sender : option string;             (* the name line, absent on own messages *)
  body : Body;
  date : string                       (* the argument of [new Date] *)
}.

Definition renderMessage (user : option User) (message : Message) : Bubble :=
  let isOwn :=
    match user with
    | Some u => (user_id message =? uid u)%string
    | None => false
    end in
  let isImage := includes (content message) (code_units "[Image]") in
  let name :=
    or_else match profile message with
            | Some p => full_name p
            | None => None
            end "Unknown" in
  {| key := id message;
     isOwn := isOwn;
     sender := if isOwn then None else Some name;
     body := if isImage then Picture (match_group (content message))
             else Text (content message);
     date := created_at message |}.

(** Which of the four returns of the component is taken. *)
Inductive Screen := LoadingScreen | NotFoundScreen | JoinPrompt | ChatScreen.

Definition screen (s : State) : Screen :=
  if loading s then LoadingScreen
  else
    match room s with
    | None => NotFoundScreen
    | Some _ => if isMember s then ChatScreen else JoinPrompt
    end.

(** [disabled] of the send button (line 478 of the file). *)
Definition send_disabled (s : State) : bool :=
  sendingMessage s || not_string (trim (newMessage s)).

(** *** Further notions about the page *)

(** The channels the page should hold: those of its room when it is mounted
    with [isMember] set and a room id, none otherwise. *)
Definition expected (s : State) : list Channel :=
  match roomId s with
  | Some rid =>
      if mounted s && isMember s && negb (rid =? "")%string
      then room_channels rid else []
  | None => []
  end.

Record tight (s : State) : Prop := {
  tight_gate : gate s;
  tight_channels : channels s = expected s
}.

Definition is_Subscribe (c : Channel) (call : RealtimeCall) : bool :=
  match call with Subscribe x => channel_eqb c x | RemoveChannel _ => false end.

Definition is_RemoveChannel (c : Channel) (call : RealtimeCall) : bool :=
  match call with RemoveChannel x => channel_eqb c x | Subscribe _ => false end.

(** Every subscription of [c] is matched by a removal, or [c] is held. *)
Definition balanced (s : State) : Prop :=
  forall c,
    count_if (is_Subscribe c) (realtime s)
    = count_if (is_RemoveChannel c) (realtime s)
      + count_if (channel_eqb c) (channels s).

Definition writes_messages (e : Event) : bool :=
  match e with SnapshotSettled _ | LookupSettled _ _ => true | _ => false end.

Definition writes_members (e : Event) : bool :=
  match e with SnapshotSettled _ | MembersSettled _ => true | _ => false end.

Definition is_SnapshotSettled (e : Event) : bool :=
  match e with SnapshotSettled _ => true | _ => false end.

(** The live messages that arrive in the course of [es], starting in state
    [s] with the notifications [pending] waiting for their profile lookup: a
    notification on a held message channel joins the waiting ones, and when
    the lookup of the [n]-th waiting one settles, its message arrives with
    the profile that was found. *)
Fixpoint arrived (s : State) (pending : list Message) (es : list Event)
  : list Message :=
  match es with
  | [] => []
  | e :: rest =>
      match e with
      | MessageInserted m =>
          arrived (step s e) (if delivered s m then pending ++ [m] else pending) rest
      | LookupSettled n r =>
          match take_nth n pending with
          | Some (m, others) =>
              m<|profile := data r|> :: arrived (step s e) others rest
          | None => arrived (step s e) pending rest
          end
      | _ => arrived (step s e) pending rest
      end
  end.

(** A settlement that tells the caller the send did not go through. *)
Definition send_failed (r : Settled (option Message)) : bool :=
  match r with Fulfilled (Some _) => false | _ => true end.

(** Nobody is signed in and nothing was loaded. *)
Record idle (s : State) : Prop := {
  idle_user : user s = None;
  idle_loads : loads s = 0;
  idle_loading : loading s = true;
  idle_room : room s = None
}.

End RoomPage.

(** * Properties *)

Local Arguments String.eqb : simpl never.
Local Arguments count_if : simpl never.

Ltac simp := cbn in *; unfold constant in *; cbn in *.

(** Comparisons of string literals, evaluated. *)
Ltac literals :=
  repeat match goal with
    | |- context [String.eqb ?a ?b] =>
        let v := eval vm_compute in (String.eqb a b) in
        lazymatch v with
        | true => change (String.eqb a b) with true
        | false => change (String.eqb a b) with false
        end
    end.

(** Case analysis on what the handlers branch on, innermost first. *)
Ltac no_match x :=
  lazymatch x with
  | context [match _ with _ => _ end] => fail
  | _ => idtac
  end.

(** The same on the goal alone, for the larger record of the room page. *)
Ltac rsimp := cbn; unfold constant; cbn.

Ltac rcases :=
  repeat (rsimp;
    match goal with
    | |- context [match ?x with _ => _ end] => no_match x; destruct x eqn:?
    end); rsimp.

Ltac bools :=
  repeat match goal with
    | H : _ || _ = false |- _ => apply orb_false_iff in H as [? ?]
    | H : _ && _ = true |- _ => apply andb_true_iff in H as [? ?]
    end.

Ltac split_cases :=
  repeat (simp;
    match goal with
    | |- context [match ?x with _ => _ end] => no_match x; destruct x eqn:?
    end); simp.

(** Every handler of the provider, unfolded down to record updates. *)
Ltac handlers :=
  unfold AuthContext.step, AuthContext.effect, AuthContext.effect_cleanup,
    AuthContext.tick, AuthContext.on_timeout, AuthContext.initAuth_session,
    AuthContext.initAuth_call, AuthContext.initAuth_finish,
    AuthContext.initAuth_catch, AuthContext.onAuthStateChange,
    AuthContext.fetchProfile_resume, AuthContext.fetchProfile_catch,
    AuthContext.fetchProfile_call, AuthContext.refreshProfile_call,
    AuthContext.refreshProfile_resume, AuthContext.signOut_call,
    AuthContext.signOut_resume, AuthContext.say, AuthContext.request in *.

Local Arguments RoomPage.trim : simpl never.
Local Arguments RoomPage.image_content : simpl never.

(** The handlers of the room page. *)
Ltac room_handlers :=
  unfold RoomPage.loadRoomData_resume, RoomPage.on_insert_resume,
    RoomPage.handleSendMessage_call, RoomPage.handleSendMessage_resume,
    RoomPage.handleFileUpload_call, RoomPage.handleFileUpload_uploaded,
    RoomPage.handleFileUpload_resume, RoomPage.handleJoinRoom_call,
    RoomPage.handleJoinRoom_resume, RoomPage.handleLeaveRoom_call,
    RoomPage.handleLeaveRoom_resume, RoomPage.toast_reading_message,
    RoomPage.sendMessage, RoomPage.toast, RoomPage.navigate;
  cbv zeta.

(** Case analysis without touching the state record. *)
Ltac branches :=
  repeat match goal with
    | |- context [match ?x with _ => _ end] => no_match x; destruct x eqn:?
    end.

Lemma count_if_snoc {A : Type} (p : A -> bool) (l : list A) (x : A) :
  count_if p (l ++ [x]) = count_if p l + (if p x then 1 else 0).
Proof.
  unfold count_if. rewrite filter_app, length_app. cbn.
  destruct (p x); reflexivity.
Qed.

Lemma existsb_snoc {A : Type} (p : A -> bool) (l : list A) (x : A) :
  existsb p (l ++ [x]) = existsb p l || p x.
Proof. rewrite existsb_app. cbn. now rewrite orb_false_r. Qed.

Module AuthContextFacts.
Import AuthContext.

Lemma run_cons s e es : run s (e :: es) = run (step s e) es.
Proof. reflexivity. Qed.

Lemma guard_inv_initial t0 : guard_inv (initial t0).
Proof. split; cbn; auto. Qed.

Lemma guard_inv_step s e : guard_inv s -> guard_inv (step s e).
Proof.
  intros [H1 H2 H3 H4]. destruct s as [? ? ? ? ini ? ? ? ? ? phase ? ? ? ? ?]; simp.
  destruct phase, ini; try discriminate;
  destruct e; handlers; simp; split_cases; subst;
    split; simp; rewrite ?count_if_snoc; unfold init_line, timeout_log in *;
    literals; simp; try lia; try congruence.
Qed.

Lemma guard_inv_run es : forall s, guard_inv s -> guard_inv (run s es).
Proof.
  induction es as [|e es IH]; intros s H; cbn; [assumption|].
  apply IH, guard_inv_step, H.
Qed.

Lemma initialized_step s e : initialized (step s e) = initialized s || is_Mount e.
Proof.
  destruct s; destruct e; handlers; simp; split_cases;
    rewrite ?orb_false_r, ?orb_true_r; congruence || reflexivity.
Qed.

Lemma initialized_run es : forall s,
  initialized (run s es) = initialized s || existsb is_Mount es.
Proof.
  induction es as [|e es IH]; intros s.
  - cbn. now rewrite orb_false_r.
  - rewrite run_cons, IH, initialized_step. cbn [existsb].
    now rewrite orb_assoc.
Qed.









(** Once the timeout is cleared it stays cleared, and its callback does not
    run. *)
Lemma cleared_step s e :
  initialized s = true -> timeoutId s = None ->
  initialized (step s e) = true /\ timeoutId (step s e) = None
  /\ timed_out (step s e) = timed_out s.
Proof.
  destruct s as [? ? ? ? ini ? tid ? ? ? ? ? ? ? ? ?]; simp. intros -> ->.
  unfold timed_out.
  destruct e; handlers; simp; split_cases; rewrite ?existsb_snoc;
    unfold timeout_log; literals; rewrite ?orb_false_r; auto.
Qed.

Lemma cleared_run es : forall s,
  initialized s = true -> timeoutId s = None ->
  initialized (run s es) = true /\ timeoutId (run s es) = None
  /\ timed_out (run s es) = timed_out s.
Proof.
  induction es as [|e es IH]; intros s Hi Ht; [cbn; auto|].
  rewrite run_cons.
  destruct (cleared_step s e Hi Ht) as (Hi' & Ht' & Ho).
  destruct (IH _ Hi' Ht') as (? & ? & ?). repeat split; congruence.
Qed.



Lemma subscribed_initialized_step s e :
  (subscription s = true -> initialized s = true) ->
  subscription (step s e) = true -> initialized (step s e) = true.
Proof.
  destruct s as [? ? ? ? ini ? ? ? sub ? ? ? ? ? ? ?]; simp.
  destruct e; handlers; simp; split_cases; auto; try discriminate;
    destruct sub, ini; simp; auto.
Qed.

Lemma subscribed_initialized es : forall s,
  (subscription s = true -> initialized s = true) ->
  subscription (run s es) = true -> initialized (run s es) = true.
Proof.
  induction es as [|e es IH]; intros s H; [exact H|].
  rewrite run_cons. apply IH. apply subscribed_initialized_step, H.
Qed.

(** The guard of the listener (line 140) is true whenever the listener can
    run: the ref is set on line 82, before the listener is registered. *)
Lemma listener_clears_loading t0 es event session :
  let s := run (initial t0) es in
  subscription s = true ->
  loading (step s (AuthStateChange event session)) = false.
Proof.
  intros s Hs.
  assert (Hi : initialized s = true).
  { apply subscribed_initialized; [cbn; discriminate | exact Hs]. }
  destruct s as [? ? ? ? ini ? ? ? sub ? ? ? ? ? ? ?]; simp. subst.
  unfold onAuthStateChange, say; simp. split_cases; reflexivity.
Qed.

(** C2, at a concrete run: the provider mounts, and the auth client reports
    the initial session before [getSession] has resolved.  [initAuth] is still
    suspended at its first [await], and the listener has set [loading] to
    [false]. *)
Example listener_event_during_initialization :
  let s := run (initial 0) [Mount; AuthStateChange INITIAL_SESSION None] in
  initAuth s = AwaitingSession /\ loading (step (initial 0) Mount) = true
  /\ loading s = false.
Proof. cbn. repeat split. Qed.

(** C3: whatever happens to the provider, and however often React runs the
    effect, [initAuth] starts once, [getSession] is requested once and the
    profile is resolved on behalf of the initialisation at most once; a run of
    the effect after the first issues no request and leaves the context value
    as it is. *)
Theorem initialization_runs_once (t0 : Z) (es : list Event) :
  let s := run (initial t0) es in
  let runs := if existsb is_Mount es then 1 else 0 in
  count_if (String.eqb init_line) (console s) = runs
  /\ count_if is_GetSession (requests s) = runs
  /\ count_if is_init_profile (requests s) <= runs
  /\ (runs = 1 ->
      requests (step s Mount) = requests s /\ value (step s Mount) = value s
      /\ initAuth (step s Mount) = initAuth s).
Proof.
  intros s runs.
  pose proof (guard_inv_run es _ (guard_inv_initial t0)) as [H1 H2 H3 H4].
  pose proof (initialized_run es (initial t0)) as Hi. fold s in H1, H2, H3, H4, Hi.
  cbn [initial initialized orb] in Hi. subst runs. rewrite <- Hi.
  repeat split; try assumption.
  - rewrite H1 in *. destruct (initAuth s); cbn in *; lia.
  - destruct (initialized s) eqn:E; [|discriminate].
    destruct s; simp. subst. reflexivity.
  - destruct (initialized s) eqn:E; [|discriminate].
    destruct s; simp. subst. reflexivity.
  - destruct (initialized s) eqn:E; [|discriminate].
    destruct s; simp. subst. reflexivity.
Qed.

(** React in strict mode: the effect runs, its cleanup runs, the effect runs
    again. *)
Lemma initialization_runs_once_witness :
  let s := run (initial 0) [Mount; Unmount; Mount] in
  count_if is_GetSession (requests s) = 1
  /\ requests (step s Mount) = requests s
  /\ value (step s Mount) = value s.
Proof.
  intros s.
  destruct (initialization_runs_once 0 [Mount; Unmount; Mount]) as (_ & A & _ & B).
  fold s in A, B. split; [exact A|].
  destruct (B eq_refl) as (B1 & B2 & _). split; assumption.
Defined.




(** C9, at a concrete run: a user is signed in with a profile, [signOut] is
    called and the external sign-out rejects.  The call has settled, and user
    and profile are still there. *)
Lemma signOut_rejected_keeps_identity :
  let u := {| uid := "u1" |} in
  let p := {| id := "u1"; username := "ann"; full_name := None;
              avatar_url := None; created_at := "2024-01-01T00:00:00Z" |} in
  let s :=
    run (initial 0)
      [Mount;
       SessionSettled
         (Fulfilled {| data_session := Some {| session_user := u |};
                       response_error := None |});
       InitProfileSettled (Fulfilled (Some p));
       CallSignOut;
       SignOutSettled (Rejected (new_Error "Failed to fetch"))] in
  signingOut s = 0 /\ user s = Some u /\ profile s = Some p.
Proof. cbn. repeat split. Qed.

(** C9, amended: [signOut] calls the external sign-out and awaits it.  When
    that resolves, user and profile are both cleared; when it rejects, the
    function is left at the [await] and user and profile are what they were. *)
Theorem signOut_outcome (s : State) (r : Settled unit) :
  let s' := step (step s CallSignOut) (SignOutSettled r) in
  requests s' = requests s ++ [SupabaseSignOut]
  /\ signingOut s' = signingOut s
  /\ match r with
     | Fulfilled _ => user s' = None /\ profile s' = None
     | Rejected _ => user s' = user s /\ profile s' = profile s
     end.
Proof.
  destruct s, r; simp; auto.
Qed.

End AuthContextFacts.

Module RoomPageFacts.
Import RoomPage.

Lemma room_run_cons s e es : run s (e :: es) = run (step s e) es.
Proof. reflexivity. Qed.

Lemma room_run_app s es1 es2 : run s (es1 ++ es2) = run (run s es1) es2.
Proof. unfold run. now rewrite fold_left_app. Qed.

Lemma same_id_refl a : same_id a a = true.
Proof. destruct a; cbn; [apply String.eqb_refl | reflexivity]. Qed.

Lemma same_id_eq a b : same_id a b = true -> a = b.
Proof.
  destruct a, b; cbn; try discriminate; auto.
  intros H. apply String.eqb_eq in H. now subst.
Qed.

(** A render after which no dependency changed runs no effect. *)
Lemma commit_same before after :
  roomId after = roomId before -> isMember after = isMember before ->
  commit false before after = after.
Proof.
  intros Hr Hm. unfold commit. rewrite Hr, Hm, same_id_refl, Bool.eqb_reflx.
  cbn. now destruct (mounted after).
Qed.

Lemma take_nth_last {A : Type} (l : list A) (x : A) :
  take_nth (List.length l) (l ++ [x]) = Some (x, l).
Proof.
  induction l as [|y l IH]; cbn; [reflexivity|]. now rewrite IH.
Qed.

(** An INSERT notification on a held channel followed by the answer to its
    lookup: the message goes to the end of the list. *)
Lemma insert_then_lookup s m r :
  delivered s m = true ->
  let s' := run s [MessageInserted m; LookupSettled (List.length (lookups s)) r] in
  messages s' = messages s ++ [m<|profile := data r|>]
  /\ lookups s' = lookups s /\ channels s' = channels s.
Proof.
  intros Hd. unfold delivered in Hd. cbn [run fold_left].
  assert (H1 : step s (MessageInserted m) = s<|lookups ::= fun l => l ++ [m]|>).
  { unfold step. cbn [handle is_AuthChanged andb]. rewrite Hd.
    apply commit_same; reflexivity. }
  rewrite H1. unfold step. cbn [handle is_AuthChanged andb].
  assert (H2 : lookups (s<|lookups ::= fun l => l ++ [m]|>) = lookups s ++ [m])
    by reflexivity.
  rewrite H2, take_nth_last.
  rewrite commit_same by reflexivity. cbn. auto.
Qed.

(** C1, at a concrete run: the snapshot brings message 42, the user is a
    member, and the message channel delivers message 42 once more.  The list
    then holds it twice. *)
Lemma redelivered_message_is_duplicated :
  let m := {| id := "42"; room_id := "r1"; user_id := "u2";
              content := code_units "hello";
              created_at := "2024-05-01T10:00:00Z"; profile := None |} in
  let r := {| room_ident := "r1"; room_name := "Algebra"; room_subject := "math";
              room_description := None; room_creator_id := "u2";
              room_max_members := 10; room_created_at := "2024-04-01T00:00:00Z" |} in
  let snapshot := {| roomData := Fulfilled (Some r); membersData := Fulfilled [];
                     messagesData := Fulfilled [m];
                     membershipStatus := Fulfilled true |} in
  let before :=
    run (initial (Some "r1") (Some {| uid := "u1" |}))
      [Mount; SnapshotSettled snapshot] in
  let after :=
    run before
      [MessageInserted m;
       LookupSettled 0 {| data := None; response_error := None |}] in
  existsb (has_id "42") (messages before) = true
  /\ messages before = [m]
  /\ messages after = [m; m]
  /\ messages after <> messages before.
Proof.
  vm_compute. repeat split. discriminate.
Qed.

(** C1, amended: a live message event on a held channel, once its profile
    lookup is answered, puts the incoming message at the end of the list
    whether or not its id is already there: the list is one entry longer and
    holds one more entry with that id. *)
Theorem live_message_is_appended (s : State) (m : Message) (r : SingleResponse) :
  delivered s m = true ->
  let s' := run s [MessageInserted m; LookupSettled (List.length (lookups s)) r] in
  messages s' = messages s ++ [m<|profile := data r|>]
  /\ List.length (messages s') = S (List.length (messages s))
  /\ count_if (has_id (id m)) (messages s')
     = S (count_if (has_id (id m)) (messages s)).
Proof.
  intros Hd s'. destruct (insert_then_lookup s m r Hd) as (Hm & _ & _).
  fold s' in Hm. rewrite Hm. repeat split.
  - rewrite length_app. cbn. lia.
  - rewrite count_if_snoc. unfold has_id. cbn.
    rewrite String.eqb_refl. lia.
Qed.

Lemma live_message_is_appended_witness :
  let m := {| id := "42"; room_id := "r1"; user_id := "u2";
              content := code_units "hello";
              created_at := "2024-05-01T10:00:00Z"; profile := None |} in
  let s := (initial (Some "r1") (Some {| uid := "u1" |}))
             <|mounted := true|><|isMember := true|>
             <|unsubscribe := Some (room_channels "r1")|>
             <|channels := room_channels "r1"|>
             <|messages := [m]|> in
  let r := {| data := Some {| full_name := Some "Bea"; avatar_url := None |};
              response_error := None |} in
  let s' := run s [MessageInserted m; LookupSettled 0 r] in
  delivered s m = true
  /\ (messages s' = messages s ++ [m<|profile := data r|>]
      /\ List.length (messages s') = S (List.length (messages s))
      /\ count_if (has_id (id m)) (messages s')
         = S (count_if (has_id (id m)) (messages s))).
Proof.
  intros m s r s'. split; [reflexivity|].
  apply (live_message_is_appended s m r). reflexivity.
Defined.

(** C8: the handler of a delivered INSERT notification waits for the profile
    lookup, and whenever that lookup is answered without a row, with an error
    or without, the message goes to the end of the list with no profile. *)
Theorem message_kept_without_profile
    (s : State) (n : nat) (m : Message) (others : list Message)
    (r : SingleResponse) :
  take_nth n (lookups s) = Some (m, others) ->
  data r = None ->
  let s' := step s (LookupSettled n r) in
  messages s' = messages s ++ [m<|profile := None|>]
  /\ In (m<|profile := None|>) (messages s')
  /\ lookups s' = others.
Proof.
  intros Hn Hd s'. subst s'. unfold step. cbn [handle is_AuthChanged andb].
  rewrite Hn, commit_same by reflexivity.
  unfold on_insert_resume, insert_updater. cbn. unfold constant. rewrite Hd.
  repeat split. apply in_or_app. right. left. reflexivity.
Qed.

Lemma message_kept_without_profile_witness :
  let m := {| id := "43"; room_id := "r1"; user_id := "u9";
              content := code_units "bye";
              created_at := "2024-05-01T10:05:00Z"; profile := None |} in
  let s := run ((initial (Some "r1") (Some {| uid := "u1" |}))
                  <|mounted := true|><|isMember := true|>
                  <|unsubscribe := Some (room_channels "r1")|>
                  <|channels := room_channels "r1"|>)
               [MessageInserted m] in
  let r := {| data := None;
              response_error := Some (new_Error "JSON object requested, multiple (or no) rows returned") |} in
  lookups s = [m]
  /\ messages (step s (LookupSettled 0 r)) = [m]
  /\ In m (messages (step s (LookupSettled 0 r))).
Proof.
  intros m s r. split; [reflexivity|].
  destruct (message_kept_without_profile s 0 m [] r eq_refl eq_refl) as (A & B & _).
  split; [exact A | exact B].
Defined.

Lemma unusable_snapshot r :
  any_rejected r = true \/ roomData r = Fulfilled None ->
  (exists e, promise_all r = Rejected e)
  \/ (exists ms msgs status, promise_all r = Fulfilled (None, ms, msgs, status)).
Proof.
  unfold any_rejected, promise_all, rejected.
  destruct (roomData r) as [[rd|]|], (membersData r), (messagesData r),
    (membershipStatus r); cbn; intros [H|H]; try discriminate; eauto 6.
Qed.

(** C5: [loadRoomData] awaits the four reads together, and when one of them
    fails (or the room read finds no room), the settled load leaves [room],
    [members], [messages] and [isMember] as they were; it reports the failure
    and ends the loading state. *)
Theorem snapshot_all_or_nothing (s : State) (r : Snapshot) :
  any_rejected r = true \/ roomData r = Fulfilled None ->
  let s' := step s (SnapshotSettled r) in
  room s' = room s /\ members s' = members s /\ messages s' = messages s
  /\ isMember s' = isMember s
  /\ (loads s <> 0 ->
      loading s' = false /\ exists title, toasts s' = toasts s ++ [title]).
Proof.
  intros Hr s'. subst s'.
  unfold step. cbn [handle is_AuthChanged andb].
  destruct (loads s) as [|n] eqn:Hl.
  - rewrite commit_same by reflexivity. repeat split; congruence.
  - unfold loadRoomData_resume.
    destruct (unusable_snapshot r Hr) as [[e He]|(ms & msgs & status & He)];
      rewrite He; rewrite commit_same by reflexivity; cbn;
      repeat split; eauto.
Qed.

Lemma snapshot_all_or_nothing_witness :
  let m := {| id := "42"; room_id := "r1"; user_id := "u2";
              content := code_units "hello";
              created_at := "2024-05-01T10:00:00Z"; profile := None |} in
  let r := {| room_ident := "r1"; room_name := "Algebra"; room_subject := "math";
              room_description := None; room_creator_id := "u2";
              room_max_members := 10; room_created_at := "2024-04-01T00:00:00Z" |} in
  let snapshot := {| roomData := Fulfilled (Some r); membersData := Fulfilled [];
                     messagesData := Rejected (new_Error "Failed to fetch");
                     membershipStatus := Fulfilled true |} in
  let s := run (initial (Some "r1") (Some {| uid := "u1" |})) [Mount] in
  let s' := step s (SnapshotSettled snapshot) in
  loads s = 1
  /\ (room s' = None /\ members s' = [] /\ messages s' = []
      /\ isMember s' = false)
  /\ loading s' = false.
Proof.
  intros m r snapshot s s'. split; [reflexivity|].
  destruct (snapshot_all_or_nothing s snapshot (or_introl eq_refl))
    as (A & B & C & D & E).
  split; [repeat split; assumption|].
  apply E. discriminate.
Defined.

(** *** Blank text *)

Lemma not_string_trimStart s : not_string (trimStart s) = blank s.
Proof.
  induction s as [|c s IH]; cbn; [reflexivity|].
  destruct (is_white_space c); [exact IH | reflexivity].
Qed.

Lemma blank_trimStart s : blank (trimStart s) = blank s.
Proof.
  induction s as [|c s IH]; [reflexivity|].
  cbn [trimStart]. destruct (is_white_space c) eqn:E; [|reflexivity].
  rewrite IH. unfold blank. cbn [forallb]. now rewrite E.
Qed.

Lemma blank_rev s : blank (rev s) = blank s.
Proof.
  unfold blank. induction s as [|c s IH]; [reflexivity|].
  cbn [rev forallb]. rewrite forallb_app, IH. cbn [forallb].
  rewrite andb_true_r. apply andb_comm.
Qed.

Lemma not_string_rev s : not_string (rev s) = not_string s.
Proof.
  destruct s as [|c s]; [reflexivity|].
  cbn [rev not_string]. destruct (rev s); reflexivity.
Qed.

(** [!text.trim()] holds of the blank texts and of no other. *)
Lemma not_trim_blank s : not_string (trim s) = blank s.
Proof.
  unfold trim, trimEnd.
  now rewrite not_string_rev, not_string_trimStart, blank_rev, blank_trimStart.
Qed.

Lemma image_content_not_blank url : blank (image_content url) = false.
Proof. reflexivity. Qed.

(** *** What the effects touch *)

Lemma core_cleanup s : core (subscription_cleanup s) = core s.
Proof. unfold subscription_cleanup. destruct (unsubscribe s); reflexivity. Qed.

Lemma core_effect s : core (subscription_effect s) = core s.
Proof. unfold subscription_effect. branches; reflexivity. Qed.

Lemma core_load s : core (loadRoomData_call s) = core s.
Proof. unfold loadRoomData_call. branches; reflexivity. Qed.

Lemma wiring_load s : wiring (loadRoomData_call s) = wiring s.
Proof. unfold loadRoomData_call. branches; reflexivity. Qed.

Lemma core_commit uc before after : core (commit uc before after) = core after.
Proof.
  unfold commit. cbv zeta.
  destruct (mounted after); [|reflexivity].
  destruct (negb (same_id (roomId before) (roomId after))
            || negb (Bool.eqb (isMember before) (isMember after)));
    destruct (negb (same_id (roomId before) (roomId after)) || uc);
    rewrite ?core_effect, ?core_load, ?core_cleanup; reflexivity.
Qed.

(** The handlers leave the realtime client and the mounting to React. *)
Lemma wiring_handle s e :
  is_Mount e = false -> e <> Unmount -> wiring (handle s e) = wiring s.
Proof.
  intros Hm Hu.
  destruct e; try discriminate Hm; try (contradiction Hu; reflexivity);
    cbn [handle]; room_handlers; branches; reflexivity.
Qed.

(** *** The guard of [handleSendMessage] *)

Lemma send_inv_handle s e : send_inv s -> send_inv (handle s e).
Proof.
  intros [Hf Ht]. destruct s. cbn in Hf, Ht.
  destruct e; cbn [handle]; room_handlers;
    unfold subscription_effect, subscription_cleanup, loadRoomData_call;
    rcases; split; rsimp; auto; bools;
    try solve [ congruence
              | destruct sendingMessage0; congruence
              | apply Forall_app; split; [assumption|];
                constructor; [|constructor]; cbn [snd];
                solve [ apply image_content_not_blank
                      | rewrite <- not_trim_blank; assumption ] ].
Qed.

Lemma send_inv_core s s' : core s' = core s -> send_inv s -> send_inv s'.
Proof.
  unfold core. intros H [Hf Ht]. injection H; intros.
  split.
  - replace (sending s') with (sending s) by (symmetry; assumption).
    replace (sendingMessage s') with (sendingMessage s) by (symmetry; assumption).
    exact Hf.
  - replace (sent s') with (sent s) by (symmetry; assumption). exact Ht.
Qed.

Lemma send_inv_step s e : send_inv s -> send_inv (step s e).
Proof.
  intros H. apply (send_inv_handle s e) in H.
  unfold step. destruct e; try exact H;
    (eapply send_inv_core; [apply core_commit | exact H]).
Qed.

Lemma send_inv_run es : forall s, send_inv s -> send_inv (run s es).
Proof.
  induction es as [|e es IH]; intros s H; [exact H|].
  rewrite room_run_cons. apply IH, send_inv_step, H.
Qed.

Lemma send_inv_initial rid u : send_inv (initial rid u).
Proof. split; cbn; auto. Qed.

(** C10, at a concrete run: a member types a text and sends it, and while
    that send is pending picks an image; the upload finishes and the image
    message is sent too.  Two [sendMessage] calls are now pending. *)
Lemma text_and_image_sends_in_flight :
  let r := {| room_ident := "r1"; room_name := "Algebra"; room_subject := "math";
              room_description := None; room_creator_id := "u2";
              room_max_members := 10; room_created_at := "2024-04-01T00:00:00Z" |} in
  let snapshot := {| roomData := Fulfilled (Some r); membersData := Fulfilled [];
                     messagesData := Fulfilled [];
                     membershipStatus := Fulfilled true |} in
  let s :=
    run (initial (Some "r1") (Some {| uid := "u1" |}))
      [Mount; SnapshotSettled snapshot;
       Typed (code_units "hi"); Send;
       FileChosen (Some {| file_name := "notes.png" |});
       UploadSettled 0 (Fulfilled (Some (code_units "https://cdn.example/notes.png")))] in
  sendingMessage s = true
  /\ sending s = 1 /\ imageSends s = 1 /\ in_flight s = 2
  /\ sent s = [("r1", code_units "hi");
               ("r1", image_content (code_units "https://cdn.example/notes.png"))].
Proof.
  vm_compute. repeat split.
Qed.

(** C10, amended: [sendMessage] is never called with blank content, and at
    most one send issued by [handleSendMessage] is pending at a time: while
    [sendingMessage] is set exactly one is pending, otherwise none, and while
    it is set a further attempt changes nothing and sends nothing. *)
Theorem send_guard (rid : option string) (u : option User) (es : list Event) :
  let s := run (initial rid u) es in
  Forall (fun call => blank (snd call) = false) (sent s)
  /\ sending s = (if sendingMessage s then 1 else 0)
  /\ (sendingMessage s = true -> step s Send = s).
Proof.
  intros s.
  destruct (send_inv_run es _ (send_inv_initial rid u)) as [Hf Ht]. fold s in Hf, Ht.
  repeat split; try assumption.
  intros Hs. unfold step. cbn [handle is_AuthChanged andb].
  assert (H : handle s Send = s).
  { cbn [handle]. unfold handleSendMessage_call. rewrite Hs, orb_true_r.
    now destruct (mounted s). }
  cbn [handle] in H. rewrite H. apply commit_same; reflexivity.
Qed.

Lemma send_guard_witness :
  let s := run (initial (Some "r1") (Some {| uid := "u1" |}))
               [Mount; Typed (code_units "hi"); Send; Typed (code_units "again")] in
  sendingMessage s = true /\ sent s = [("r1", code_units "hi")]
  /\ sending s = 1 /\ step s Send = s.
Proof.
  intros s.
  destruct (send_guard (Some "r1") (Some {| uid := "u1" |})
              [Mount; Typed (code_units "hi"); Send; Typed (code_units "again")])
    as (A & B & C).
  fold s in A, B, C.
  assert (Hs : sendingMessage s = true) by (vm_compute; reflexivity).
  split; [exact Hs|]. split; [vm_compute; reflexivity|].
  split; [rewrite B, Hs; reflexivity | apply C, Hs].
Defined.

(** *** Order of the merged list *)

Lemma compare_lt_trans a : forall b c,
  String.compare a b = Lt -> String.compare b c = Lt -> String.compare a c = Lt.
Proof.
  induction a as [|x a IH]; intros [|y b] [|z c]; cbn; try discriminate; auto.
  unfold Ascii.compare.
  destruct (N.compare_spec (N_of_ascii x) (N_of_ascii y)) as [E1|L1|G1];
    try discriminate;
    destruct (N.compare_spec (N_of_ascii y) (N_of_ascii z)) as [E2|L2|G2];
    try discriminate; intros H1 H2.
  - rewrite E1, E2, N.compare_refl. eapply IH; eassumption.
  - rewrite E1. apply N.compare_lt_iff in L2. now rewrite L2.
  - rewrite <- E2. apply N.compare_lt_iff in L1. now rewrite L1.
  - assert (L : (N_of_ascii x < N_of_ascii z)%N) by lia.
    apply N.compare_lt_iff in L. now rewrite L.
Qed.

Lemma ltb_trans a b c :
  (a <? b)%string = true -> (b <? c)%string = true -> (a <? c)%string = true.
Proof.
  unfold String.ltb. intros H1 H2.
  destruct (String.compare a b) eqn:E1; try discriminate.
  destruct (String.compare b c) eqn:E2; try discriminate.
  now rewrite (compare_lt_trans a b c E1 E2).
Qed.

Lemma ltb_leb a b :
  (a <? b)%string = true -> (a <=? b)%string = true /\ (b <=? a)%string = false.
Proof.
  unfold String.ltb, String.leb. rewrite (String.compare_antisym b a).
  destruct (String.compare a b); try discriminate. auto.
Qed.

Lemma live_cons a arrivals :
  live (a :: arrivals)
  = [MessageInserted (fst a); LookupSettled 0 (snd a)] ++ live arrivals.
Proof. reflexivity. Qed.

(** Live messages, each answered before the next arrives, line up behind the
    list in the order of their arrival. *)
Lemma live_run arrivals : forall s,
  lookups s = [] ->
  forallb (fun a => delivered s (fst a)) arrivals = true ->
  messages (run s (live arrivals)) = messages s ++ map as_merged arrivals.
Proof.
  induction arrivals as [|a arrivals IH]; intros s Hl Hd.
  - cbn. now rewrite app_nil_r.
  - cbn [forallb] in Hd. apply andb_true_iff in Hd as [Ha Hd].
    rewrite live_cons, room_run_app.
    destruct (insert_then_lookup s (fst a) (snd a) Ha) as (Hm & Hk & Hc).
    rewrite Hl in Hm, Hk, Hc. cbn [List.length] in Hm, Hk, Hc.
    rewrite IH.
    + rewrite Hm, <- app_assoc. reflexivity.
    + exact Hk.
    + unfold delivered in *. rewrite Hc. exact Hd.
Qed.

Lemma ascending3 x y z :
  ascending [x; y; z]
  = (created_at x <=? created_at y)%string && (created_at y <=? created_at z)%string.
Proof. cbn [ascending]. now rewrite andb_true_r. Qed.

Lemma created_at_merged a : created_at (as_merged a) = created_at (fst a).
Proof. reflexivity. Qed.

(** C6, at a concrete run: the user is a member of an empty room, and three
    messages with distinct ids, written at 10:00:01, 10:00:02 and 10:00:03,
    arrive on the message channel latest first.  The list shows them as they
    arrived, not by timestamp. *)
Lemma arrival_order_is_kept :
  let at_ (i t : string) :=
    {| id := i; room_id := "r1"; user_id := "u2"; content := code_units "x";
       created_at := t; profile := None |} in
  let m1 := at_ "1" "2024-05-01T10:00:01Z" in
  let m2 := at_ "2" "2024-05-01T10:00:02Z" in
  let m3 := at_ "3" "2024-05-01T10:00:03Z" in
  let found := {| data := None; response_error := None |} in
  let r := {| room_ident := "r1"; room_name := "Algebra"; room_subject := "math";
              room_description := None; room_creator_id := "u2";
              room_max_members := 10; room_created_at := "2024-04-01T00:00:00Z" |} in
  let snapshot := {| roomData := Fulfilled (Some r); membersData := Fulfilled [];
                     messagesData := Fulfilled [];
                     membershipStatus := Fulfilled true |} in
  let s :=
    run (initial (Some "r1") (Some {| uid := "u1" |}))
      ([Mount; SnapshotSettled snapshot]
       ++ live [(m3, found); (m1, found); (m2, found)]) in
  (created_at m1 <? created_at m2)%string = true
  /\ (created_at m2 <? created_at m3)%string = true
  /\ messages s = [m3; m1; m2]
  /\ ascending (messages s) = false.
Proof.
  vm_compute. repeat split.
Qed.

(** C6, amended: three messages with timestamps t1 < t2 < t3 that reach an
    empty list as live events, in any of the six orders, are listed in the
    order of their arrival; the list is in ascending timestamp order exactly
    when they arrive in timestamp order. *)
Theorem live_messages_in_arrival_order
    (s : State) (a1 a2 a3 : Message * SingleResponse)
    (arrival : list (Message * SingleResponse)) :
  messages s = [] -> lookups s = [] ->
  delivered s (fst a1) = true ->
  delivered s (fst a2) = true ->
  delivered s (fst a3) = true ->
  (created_at (fst a1) <? created_at (fst a2))%string = true ->
  (created_at (fst a2) <? created_at (fst a3))%string = true ->
  In arrival (orders a1 a2 a3) ->
  let s' := run s (live arrival) in
  messages s' = map as_merged arrival
  /\ (ascending (messages s') = true <-> arrival = [a1; a2; a3]).
Proof.
  intros Hm Hl D1 D2 D3 L12 L23 Hin s'.
  pose proof (ltb_trans _ _ _ L12 L23) as L13.
  destruct (ltb_leb _ _ L12) as [A12 B12].
  destruct (ltb_leb _ _ L23) as [A23 B23].
  destruct (ltb_leb _ _ L13) as [A13 B13].
  assert (Hs : messages s' = map as_merged arrival).
  { subst s'. rewrite live_run; [now rewrite Hm | exact Hl |].
    cbn in Hin.
    repeat (destruct Hin as [<- | Hin]; [cbn [forallb fst]; now rewrite D1, D2, D3|]).
    contradiction. }
  split; [exact Hs|]. rewrite Hs.
  cbn in Hin.
  repeat (destruct Hin as [<- | Hin];
          [cbn [map]; rewrite ascending3, !created_at_merged;
           rewrite ?A12, ?A23, ?A13, ?B12, ?B23, ?B13;
           cbn [andb]; split; intros H;
           first [ reflexivity | discriminate H
                 | injection H; intros; subst; congruence ] | ]).
  contradiction.
Qed.

Lemma live_messages_in_arrival_order_witness :
  let at_ (i t : string) :=
    {| id := i; room_id := "r1"; user_id := "u2"; content := code_units "x";
       created_at := t; profile := None |} in
  let a1 := (at_ "1" "2024-05-01T10:00:01Z", {| data := None; response_error := None |}) in
  let a2 := (at_ "2" "2024-05-01T10:00:02Z", {| data := None; response_error := None |}) in
  let a3 := (at_ "3" "2024-05-01T10:00:03Z", {| data := None; response_error := None |}) in
  let s := (initial (Some "r1") (Some {| uid := "u1" |}))
             <|mounted := true|><|isMember := true|>
             <|unsubscribe := Some (room_channels "r1")|>
             <|channels := room_channels "r1"|> in
  messages (run s (live [a1; a2; a3])) = map as_merged [a1; a2; a3]
  /\ ascending (messages (run s (live [a1; a2; a3]))) = true
  /\ ascending (messages (run s (live [a2; a1; a3]))) <> true.
Proof.
  intros at_ a1 a2 a3 s.
  pose proof (fun arr => live_messages_in_arrival_order s a1 a2 a3 arr
                eq_refl eq_refl eq_refl eq_refl eq_refl eq_refl eq_refl) as H.
  destruct (H [a1; a2; a3]) as [A B]; [cbn; auto|].
  destruct (H [a2; a1; a3]) as [_ C]; [cbn; auto|].
  split; [exact A|]. split; [apply B; reflexivity|].
  intros E. apply C in E. discriminate E.
Defined.

(** *** The membership gate of the subscriptions *)

Lemma wiring_eq s s' :
  wiring s' = wiring s ->
  mounted s' = mounted s /\ unsubscribe s' = unsubscribe s
  /\ channels s' = channels s /\ realtime s' = realtime s.
Proof. unfold wiring. intros H. injection H. auto. Qed.

Lemma core_deps s s' :
  core s' = core s ->
  roomId s' = roomId s /\ isMember s' = isMember s /\ mounted s' = mounted s.
Proof. unfold core. intros H. injection H. intros. auto. Qed.

Lemma gate_held s : gate s -> held s.
Proof.
  unfold gate, held. destruct (unsubscribe s); [|auto].
  intros (_ & _ & (rid & _ & E) & Hc). split; [exists rid; exact E | exact Hc].
Qed.

Lemma gate_ext s s' :
  unsubscribe s' = unsubscribe s -> channels s' = channels s ->
  mounted s' = mounted s -> isMember s' = isMember s -> roomId s' = roomId s ->
  gate s -> gate s'.
Proof. unfold gate. intros -> -> -> -> ->. auto. Qed.

Lemma gate_unmounted s : gate s -> mounted s = false -> channels s = [].
Proof.
  unfold gate. destruct (unsubscribe s); [|auto].
  intros (Hm & _) E. congruence.
Qed.

Lemma remove_room_channels rid :
  remove_channels (room_channels rid) (room_channels rid) = [].
Proof.
  unfold remove_channels, room_channels. cbn.
  rewrite String.eqb_refl. cbn. now rewrite String.eqb_refl.
Qed.

(** The cleanup removes every channel the client holds. *)
Lemma cleanup_held s :
  held s ->
  unsubscribe (subscription_cleanup s) = None
  /\ channels (subscription_cleanup s) = []
  /\ realtime (subscription_cleanup s)
     = realtime s ++ map RemoveChannel (channels s).
Proof.
  unfold held, subscription_cleanup. destruct s; cbn.
  destruct unsubscribe0 as [cs|]; cbn; unfold constant.
  - intros [[rid ->] ->]. rewrite remove_room_channels. auto.
  - intros ->. cbn. now rewrite app_nil_r.
Qed.

(** The effect opens the two channels of the room for a member and nothing
    otherwise. *)
Lemma effect_gate s :
  channels s = [] -> mounted s = true ->
  gate (subscription_effect s)
  /\ realtime (subscription_effect s)
     = realtime s ++ map Subscribe (channels (subscription_effect s)).
Proof.
  unfold gate, subscription_effect. destruct s; cbn. intros -> ->.
  destruct (not_id roomId0 || negb isMember0) eqn:G; cbn; unfold constant.
  - now rewrite app_nil_r.
  - apply orb_false_iff in G as [G1 G2]. apply negb_false_iff in G2. subst.
    destruct roomId0 as [rid|]; [|discriminate G1]. cbn.
    repeat split; eauto.
Qed.

Lemma rewired_nothing s s' :
  channels s = [] -> channels s' = [] -> realtime s' = realtime s -> rewired s s'.
Proof.
  unfold rewired. intros -> -> ->. cbn. now rewrite app_nil_r.
Qed.

Lemma commit_gate uc before after :
  gate before -> wiring after = wiring before ->
  let s' := commit uc before after in
  gate s'
  /\ ((realtime s' = realtime before /\ channels s' = channels before)
      \/ rewired before s')
  /\ (roomId after <> roomId before \/ isMember after <> isMember before ->
      rewired before s').
Proof.
  intros G W. apply wiring_eq in W as (Wm & Wu & Wc & Wr).
  unfold commit; cbv zeta.
  destruct (mounted after) eqn:M.
  2:{ assert (Hc : channels before = []) by (apply gate_unmounted; congruence).
      assert (G' : gate after).
      { unfold gate in *. rewrite Wu, Wc, Hc.
        destruct (unsubscribe before); [|reflexivity].
        destruct G as (Hm & _). congruence. }
      split; [exact G'|]. split; [left; auto|].
      intros _. apply rewired_nothing; congruence. }
  destruct (negb (same_id (roomId before) (roomId after))
            || negb (Bool.eqb (isMember before) (isMember after))) eqn:R.
  - assert (Hh : held after).
    { apply gate_held in G. unfold held in *. now rewrite Wu, Wc. }
    destruct (cleanup_held after Hh) as (_ & C2 & C3).
    pose proof (core_deps _ _ (core_cleanup after)) as (_ & _ & C4).
    set (s1 := subscription_cleanup after) in *.
    set (s2 := if negb (same_id (roomId before) (roomId after)) || uc
               then loadRoomData_call s1 else s1).
    assert (H2 : channels s2 = [] /\ mounted s2 = true /\ realtime s2 = realtime s1).
    { subst s2. destruct (negb (same_id (roomId before) (roomId after)) || uc).
      - destruct (wiring_eq _ _ (wiring_load s1)) as (A & _ & B & C).
        repeat split; congruence.
      - repeat split; congruence. }
    destruct H2 as (H2c & H2m & H2r).
    destruct (effect_gate s2 H2c H2m) as [G' R'].
    assert (Hw : rewired before (subscription_effect s2)).
    { unfold rewired. rewrite R', H2r, C3, Wr, Wc, <- app_assoc. reflexivity. }
    auto.
  - apply orb_false_iff in R as [R1 R2].
    apply negb_false_iff in R1, R2.
    apply same_id_eq in R1. apply Bool.eqb_prop in R2.
    rewrite R1, same_id_refl. cbn [negb orb].
    assert (H : forall s2, wiring s2 = wiring after -> core s2 = core after ->
                gate s2 /\ realtime s2 = realtime before
                /\ channels s2 = channels before).
    { intros s2 W2 C2. apply wiring_eq in W2 as (A & B & C & D).
      apply core_deps in C2 as (E & F & _).
      repeat split; [|congruence|congruence].
      apply (gate_ext before); congruence. }
    assert (H' : gate (if uc then loadRoomData_call after else after)
                 /\ realtime (if uc then loadRoomData_call after else after)
                    = realtime before
                 /\ channels (if uc then loadRoomData_call after else after)
                    = channels before).
    { destruct uc; [apply H; [apply wiring_load | apply core_load]
                   | apply H; reflexivity]. }
    destruct H' as (A & B & C).
    split; [exact A|]. split; [left; auto|].
    intros [N|N]; exfalso; apply N; congruence.
Qed.

Lemma step_commit s e :
  is_Mount e = false -> e <> Unmount ->
  step s e = commit (is_AuthChanged e && mounted s) s (handle s e).
Proof.
  intros Hm Hu. destruct e; try reflexivity;
    [discriminate Hm | contradiction Hu; reflexivity].
Qed.

Lemma mount_gate s :
  gate s -> mounted s = false ->
  let s' := subscription_effect (loadRoomData_call (s<|mounted := true|>)) in
  gate s' /\ rewired s s' /\ roomId s' = roomId s /\ isMember s' = isMember s.
Proof.
  intros G M s'.
  pose proof (gate_unmounted s G M) as Hc.
  set (s0 := s<|mounted := true|>) in *.
  destruct (wiring_eq _ _ (wiring_load s0)) as (A & _ & B & C).
  destruct (effect_gate (loadRoomData_call s0)) as [G' R'].
  - rewrite B. exact Hc.
  - rewrite A. reflexivity.
  - fold s' in G', R'. split; [exact G'|]. split.
    + unfold rewired. rewrite R', C, Hc. reflexivity.
    + pose proof (core_deps _ _ (core_effect (loadRoomData_call s0))) as (E & F & _).
      pose proof (core_deps _ _ (core_load s0)) as (E' & F' & _).
      assert (E0 : roomId s0 = roomId s) by reflexivity.
      assert (F0 : isMember s0 = isMember s) by reflexivity.
      fold s' in E, F. split; congruence.
Qed.

Lemma unmount_gate s :
  gate s ->
  let s' := (subscription_cleanup s)<|mounted := false|> in
  gate s' /\ rewired s s' /\ roomId s' = roomId s /\ isMember s' = isMember s.
Proof.
  intros G s'.
  destruct (cleanup_held s (gate_held s G)) as (A & B & C).
  pose proof (core_deps _ _ (core_cleanup s)) as (E & F & _).
  assert (Hu : unsubscribe s' = None) by exact A.
  assert (Hc : channels s' = []) by exact B.
  assert (Hr : realtime s' = realtime s ++ map RemoveChannel (channels s)) by exact C.
  split; [unfold gate; now rewrite Hu|].
  split; [unfold rewired; rewrite Hr, Hc; cbn; now rewrite app_nil_r|].
  split; [exact E | exact F].
Qed.

(** One step keeps the gate, and its calls on the realtime client are none,
    or the removal of every held channel followed by the subscriptions of the
    step. *)
Lemma step_gate s e :
  gate s ->
  let s' := step s e in
  gate s'
  /\ ((realtime s' = realtime s /\ channels s' = channels s) \/ rewired s s')
  /\ (roomId s' <> roomId s \/ isMember s' <> isMember s -> rewired s s').
Proof.
  intros G s'.
  destruct (is_Mount e) eqn:Hm.
  - destruct e; try discriminate Hm. subst s'. cbn [step handle].
    destruct (mounted s) eqn:M.
    + split; [exact G|]. split; [left; auto|].
      intros [N|N]; exfalso; apply N; reflexivity.
    + destruct (mount_gate s G M) as (A & B & C & D). auto.
  - assert (Hu : {e = Unmount} + {e <> Unmount}).
    { destruct e; try (right; discriminate). left; reflexivity. }
    destruct Hu as [->|Hu].
    + subst s'. cbn [step handle].
      destruct (mounted s) eqn:M.
      * destruct (unmount_gate s G) as (A & B & C & D). auto.
      * split; [exact G|]. split; [left; auto|].
        intros [N|N]; exfalso; apply N; reflexivity.
    + subst s'. rewrite (step_commit s e Hm Hu).
      destruct (commit_gate (is_AuthChanged e && mounted s) s (handle s e) G
                  (wiring_handle s e Hm Hu)) as (A & B & C).
      split; [exact A|]. split; [exact B|].
      pose proof (core_deps _ _
                    (core_commit (is_AuthChanged e && mounted s) s (handle s e)))
        as (E & F & _).
      rewrite E, F. exact C.
Qed.

Lemma gate_initial rid u : gate (initial rid u).
Proof. reflexivity. Qed.

Lemma gate_run es : forall s, gate s -> gate (run s es).
Proof.
  induction es as [|e es IH]; intros s G; [exact G|].
  rewrite room_run_cons. apply IH. apply (step_gate s e G).
Qed.




End RoomPageFacts.

(** * Further properties of the provider *)
Module AuthContextLaws.
Import AuthContext AuthContextFacts.

Lemma loading_stays_false_step s e :
  loading s = false -> loading (step s e) = false.
Proof.
  destruct s as [? ? ld ? ? ? ? ? ? ? ? ? ? ? ? ?]; simp. intros ->.
  destruct e; handlers; simp; split_cases; reflexivity.
Qed.

(** Nothing in the provider turns [loading] back on: once it is [false], it
    is [false] after every further event (a later sign-in, a profile refresh,
    a sign-out). *)
Theorem loading_never_returns (s : State) (es : list Event) :
  loading s = false -> loading (run s es) = false.
Proof.
  revert s. induction es as [|e es IH]; intros s H; [exact H|].
  rewrite run_cons. apply IH, loading_stays_false_step, H.
Qed.

Lemma loading_never_returns_witness :
  let s := run (initial 0)
             [Mount; SessionSettled (Rejected (new_Error "Failed to fetch"))] in
  loading s = false
  /\ loading (run s [AuthStateChange SIGNED_IN
                       (Some {| session_user := {| uid := "u1" |} |});
                     RunDeferred; CallRefreshProfile; CallSignOut]) = false.
Proof.
  intros s. split; [reflexivity|].
  apply (loading_never_returns s). reflexivity.
Defined.

Lemma done_inv_initial t0 : done_inv (initial t0).
Proof. split; cbn; congruence. Qed.

Lemma done_inv_step s e : done_inv s -> done_inv (step s e).
Proof.
  intros [H1 H2 H3].
  destruct s as [? ? ld ? ini ? tid ? ? ? phase ? ? ? ? ?]; simp.
  destruct phase;
    destruct e; handlers; simp; split_cases; split; simp;
    try solve [ congruence | intros; congruence | auto
              | intros _; apply H1; discriminate
              | intros; rewrite H1 in *; try discriminate; auto ].
Qed.

Lemma done_inv_run es : forall s, done_inv s -> done_inv (run s es).
Proof.
  induction es as [|e es IH]; intros s H; [exact H|].
  rewrite run_cons. apply IH, done_inv_step, H.
Qed.

(** Whatever [getSession] and [createOrUpdateProfile] answer (a session, no
    session, an error object, a rejection, no profile), and whatever else
    happens meanwhile: in every state in which [initAuth] has completed,
    [loading] is [false] and the init timeout is cleared. *)
Theorem init_ends_loading (t0 : Z) (es : list Event) :
  let s := run (initial t0) es in
  initAuth s = Completed -> loading s = false /\ timeoutId s = None.
Proof.
  intros s H.
  destruct (done_inv_run es _ (done_inv_initial t0)) as [_ H2 H3].
  split; [apply H2, H | apply H3, H].
Qed.

Lemma init_ends_loading_witness :
  let s := run (initial 0)
             [Mount;
              SessionSettled
                (Fulfilled {| data_session := Some {| session_user := {| uid := "u1" |} |};
                              response_error := None |});
              Tick;
              InitProfileSettled (Fulfilled None)] in
  initAuth s = Completed /\ loading s = false /\ timeoutId s = None.
Proof.
  intros s. split; [reflexivity|].
  apply (init_ends_loading 0). reflexivity.
Defined.

Lemma prefix_empty x : String.prefix "" x = true.
Proof. destruct x; reflexivity. Qed.

Lemma known_error_step s e :
  known_error (error s) = true -> known_error (error (step s e)) = true.
Proof.
  destruct s as [? ? ? err ? ? ? ? ? ? ? ? ? ? ? ?]; simp. intros H.
  destruct e; handlers; simp; split_cases;
    first [ assumption | reflexivity
          | rewrite prefix_empty, ?orb_false_r, ?orb_true_r; reflexivity ].
Qed.

(** Failures never leave the provider as exceptions of unknown shape: in
    every reachable state [error] is unset, the timeout message, or one of
    [Authentication failed: ...], [Failed to load profile: ...] and
    [Failed to refresh profile: ...]. *)
Theorem error_is_one_of_four (t0 : Z) (es : list Event) :
  known_error (error (run (initial t0) es)) = true.
Proof.
  assert (H : forall s, known_error (error s) = true ->
                        known_error (error (run s es)) = true).
  { induction es as [|e es IH]; intros s H; [exact H|].
    rewrite run_cons. apply IH, known_error_step, H. }
  apply H. reflexivity.
Qed.

Lemma sign_in_budget_step s e :
  count_if is_listener_profile (requests (step s e)) + List.length (deferred (step s e))
  <= count_if is_listener_profile (requests s) + List.length (deferred s)
     + (if is_sign_in e then 1 else 0).
Proof.
  destruct s as [? ? ? ? ? ? ? dq ? ? ? ? ? ? rq ?]; simp.
  destruct e; handlers; simp; split_cases;
    rewrite ?count_if_snoc, ?length_app; simp; try lia; discriminate.
Qed.

(** The listener resolves the profile on sign-in only (line 134: not on token
    refresh): over any run, the profile requests it has issued or still has
    queued are at most as many as the [SIGNED_IN] notifications that came
    with a session. *)
Theorem profile_fetch_only_on_sign_in (t0 : Z) (es : list Event) :
  let s := run (initial t0) es in
  count_if is_listener_profile (requests s) + List.length (deferred s)
  <= count_if is_sign_in es.
Proof.
  assert (H : forall s,
             count_if is_listener_profile (requests (run s es))
             + List.length (deferred (run s es))
             <= count_if is_listener_profile (requests s)
                + List.length (deferred s) + count_if is_sign_in es).
  { induction es as [|e es IH]; intros s; [cbn; unfold count_if; cbn; lia|].
    rewrite run_cons. specialize (IH (step s e)).
    pose proof (sign_in_budget_step s e) as Hs.
    assert (Hc : count_if is_sign_in (e :: es)
                 = (if is_sign_in e then 1 else 0) + count_if is_sign_in es).
    { unfold count_if. cbn [filter]. destruct (is_sign_in e); reflexivity. }
    rewrite Hc. lia. }
  intros s. specialize (H (initial t0)). cbn in H. exact H.
Qed.

Lemma torn_down_step s e : torn_down s -> torn_down (step s e).
Proof.
  intros [H1 H2 H3 H4].
  destruct s as [? ? ? ? ini ? tid ? sub cl ? ? ? ? ? ?]; simp. subst.
  destruct e; handlers; simp; split_cases; split; reflexivity.
Qed.

Lemma torn_down_run es : forall s, torn_down s -> torn_down (run s es).
Proof.
  induction es as [|e es IH]; intros s H; [exact H|].
  rewrite run_cons. apply IH, torn_down_step, H.
Qed.

(** React in strict mode (main.tsx) runs the effect, its cleanup, and the
    effect again.  After the cleanup the guard of line 81 stops every later
    run of the effect, so from then on no auth listener is registered, an
    auth notification changes nothing, and the init timeout never runs. *)
Theorem nothing_is_set_up_again (t0 : Z) (es : list Event) :
  let s := run (initial t0) (Mount :: Unmount :: es) in
  subscription s = false /\ timeoutId s = None /\ timed_out s = false
  /\ forall event session, step s (AuthStateChange event session) = s.
Proof.
  intros s. subst s.
  change (run (initial t0) (Mount :: Unmount :: es))
    with (run (run (initial t0) [Mount; Unmount]) es).
  assert (H0 : torn_down (run (initial t0) [Mount; Unmount])) by (split; reflexivity).
  pose proof (torn_down_run es _ H0) as [H1 H2 H3 H4].
  destruct (cleared_run es (run (initial t0) [Mount; Unmount]) eq_refl eq_refl)
    as (_ & _ & Ho).
  split; [exact H2|]. split; [exact H3|]. split.
  - etransitivity; [exact Ho | reflexivity].
  - intros event session. cbn [step]. now rewrite H2.
Qed.

Lemma no_session_step s event :
  subscription s = true -> initialized s = true ->
  let s' := step s (AuthStateChange event None) in
  user s' = None /\ profile s' = None /\ loading s' = false
  /\ deferred s' = deferred s /\ requests s' = requests s.
Proof.
  destruct s as [? ? ? ? ini ? ? ? sub ? ? ? ? ? ? ?]; simp. intros -> ->.
  unfold onAuthStateChange, say; simp. repeat split.
Qed.

(** A notification without a session, whenever the listener is registered:
    user and profile are cleared at once, [loading] is [false], and no
    profile lookup is queued or requested. *)
Theorem signed_out_notification
    (t0 : Z) (es : list Event) (event : AuthChangeEvent) :
  let s := run (initial t0) es in
  subscription s = true ->
  let s' := step s (AuthStateChange event None) in
  user s' = None /\ profile s' = None /\ loading s' = false
  /\ deferred s' = deferred s /\ requests s' = requests s.
Proof.
  intros s Hs. apply no_session_step; [exact Hs|].
  apply subscribed_initialized; [cbn; discriminate | exact Hs].
Qed.

Lemma signed_out_notification_witness :
  let s := run (initial 0)
             [Mount;
              SessionSettled
                (Fulfilled {| data_session := Some {| session_user := {| uid := "u1" |} |};
                              response_error := None |})] in
  subscription s = true
  /\ user s = Some {| uid := "u1" |}
  /\ user (step s (AuthStateChange SIGNED_OUT None)) = None
  /\ profile (step s (AuthStateChange SIGNED_OUT None)) = None
  /\ loading (step s (AuthStateChange SIGNED_OUT None)) = false.
Proof.
  intros s. split; [reflexivity|]. split; [reflexivity|].
  destruct (signed_out_notification 0
              [Mount;
               SessionSettled
                 (Fulfilled {| data_session := Some {| session_user := {| uid := "u1" |} |};
                               response_error := None |})]
              SIGNED_OUT eq_refl) as (A & B & C & _).
  repeat split; assumption.
Defined.

(** The initialisation from mount to completion, with nothing else
    happening.  A failed session fetch ends it signed out with the
    [Authentication failed] message; no session ends it signed out without an
    error and without a profile request; with a session, [loading] stays
    [true] while the profile is resolved and ends when it is, with the
    profile, or without it and with the [Failed to load profile] message. *)
Theorem initialization_sequence
    (t0 : Z) (r : Settled SessionResponse) (pr : Settled (option UserProfile)) :
  let s1 := run (initial t0) [Mount; SessionSettled r] in
  let failed (err : JsError) :=
    initAuth s1 = Completed /\ loading s1 = false
    /\ user s1 = None /\ profile s1 = None
    /\ error s1 = Some ("Authentication failed: " ++ describe err)%string
    /\ requests s1 = [GetSession] in
  match r with
  | Rejected err => failed err
  | Fulfilled {| data_session := _; response_error := Some err |} => failed err
  | Fulfilled {| data_session := None; response_error := None |} =>
      initAuth s1 = Completed /\ loading s1 = false
      /\ user s1 = None /\ profile s1 = None /\ error s1 = None
      /\ requests s1 = [GetSession]
  | Fulfilled {| data_session := Some session; response_error := None |} =>
      let u := session_user session in
      let s2 := step s1 (InitProfileSettled pr) in
      loading s1 = true /\ user s1 = Some u
      /\ requests s1 = [GetSession; CreateOrUpdateProfile FromInit u]
      /\ initAuth s2 = Completed /\ loading s2 = false /\ user s2 = Some u
      /\ requests s2 = requests s1
      /\ match pr with
         | Fulfilled (Some p) => profile s2 = Some p /\ error s2 = None
         | Fulfilled None =>
             profile s2 = None
             /\ error s2 = Some "Failed to load profile: Failed to create/update profile"
         | Rejected err =>
             profile s2 = None
             /\ error s2 = Some ("Failed to load profile: " ++ describe err)%string
         end
  end.
Proof.
  destruct r as [[[session|] [err|]]|err];
    try destruct pr as [[p|]|err']; cbn; repeat (split; try reflexivity).
Qed.

End AuthContextLaws.

(** * Further properties of the room page *)
Module RoomPageLaws.
Import RoomPage RoomPageFacts.

Lemma count_if_append {A : Type} (p : A -> bool) (l1 l2 : list A) :
  count_if p (l1 ++ l2) = count_if p l1 + count_if p l2.
Proof. unfold count_if. now rewrite filter_app, length_app. Qed.

(** *** The subscriptions follow the membership exactly *)

Lemma expected_ext s s' :
  roomId s' = roomId s -> isMember s' = isMember s -> mounted s' = mounted s ->
  expected s' = expected s.
Proof. unfold expected. intros -> -> ->. reflexivity. Qed.

Lemma expected_unmounted s : mounted s = false -> expected s = [].
Proof. unfold expected. intros ->. now destruct (roomId s). Qed.

Lemma effect_expected s :
  channels s = [] -> mounted s = true ->
  channels (subscription_effect s) = expected (subscription_effect s).
Proof.
  unfold expected, subscription_effect. destruct s; cbn. intros -> ->.
  destruct (not_id roomId0 || negb isMember0) eqn:G; cbn; unfold constant.
  - destruct roomId0 as [rid|]; [|reflexivity]. cbn in G.
    destruct isMember0; [|reflexivity]. cbn in G.
    rewrite orb_false_r in G. now rewrite G.
  - apply orb_false_iff in G as [G1 G2]. apply negb_false_iff in G2. subst.
    destruct roomId0 as [rid|]; [|discriminate G1]. cbn in G1. cbn.
    now rewrite G1.
Qed.

Lemma commit_tight uc before after :
  tight before -> wiring after = wiring before ->
  tight (commit uc before after).
Proof.
  intros [G E] W.
  destruct (commit_gate uc before after G W) as (G' & _ & _).
  split; [exact G'|]. clear G'.
  apply wiring_eq in W as (Wm & Wu & Wc & Wr).
  unfold commit; cbv zeta.
  destruct (mounted after) eqn:M.
  2:{ rewrite (expected_unmounted after M), Wc.
      apply gate_unmounted; congruence. }
  destruct (negb (same_id (roomId before) (roomId after))
            || negb (Bool.eqb (isMember before) (isMember after))) eqn:R.
  - assert (Hh : held after).
    { apply gate_held in G. unfold held in *. now rewrite Wu, Wc. }
    destruct (cleanup_held after Hh) as (_ & C2 & _).
    pose proof (core_deps _ _ (core_cleanup after)) as (_ & _ & C4).
    set (s1 := subscription_cleanup after) in *.
    apply effect_expected.
    + destruct (negb (same_id (roomId before) (roomId after)) || uc);
        [|exact C2].
      destruct (wiring_eq _ _ (wiring_load s1)) as (_ & _ & B & _). congruence.
    + destruct (negb (same_id (roomId before) (roomId after)) || uc);
        [|congruence].
      destruct (wiring_eq _ _ (wiring_load s1)) as (A & _). congruence.
  - apply orb_false_iff in R as [R1 R2].
    apply negb_false_iff in R1, R2.
    apply same_id_eq in R1. apply Bool.eqb_prop in R2.
    rewrite R1, same_id_refl. cbn [negb orb].
    assert (H : forall s2, wiring s2 = wiring after -> core s2 = core after ->
                channels s2 = expected s2).
    { intros s2 W2 C2. apply wiring_eq in W2 as (A & B & C & D).
      apply core_deps in C2 as (E1 & E2 & E3).
      rewrite C, Wc, E. symmetry. apply expected_ext; congruence. }
    destruct uc; apply H; (reflexivity || apply wiring_load || apply core_load).
Qed.

Lemma step_tight s e : tight s -> tight (step s e).
Proof.
  intros T. destruct (step_gate s e (tight_gate s T)) as (G' & _ & _).
  split; [exact G'|].
  destruct (is_Mount e) eqn:Hm.
  - destruct e; try discriminate Hm. cbn [step handle].
    destruct (mounted s) eqn:M; [apply (tight_channels s T)|].
    apply effect_expected.
    + destruct (wiring_eq _ _ (wiring_load (s<|mounted := true|>))) as (_ & _ & B & _).
      rewrite B. apply (gate_unmounted s (tight_gate s T) M).
    + destruct (wiring_eq _ _ (wiring_load (s<|mounted := true|>))) as (A & _).
      rewrite A. reflexivity.
  - assert (Hu : {e = Unmount} + {e <> Unmount}).
    { destruct e; try (right; discriminate). left; reflexivity. }
    destruct Hu as [->|Hu].
    + cbn [step handle].
      destruct (mounted s) eqn:M; [|apply (tight_channels s T)].
      destruct (cleanup_held s (gate_held s (tight_gate s T))) as (_ & B & _).
      rewrite expected_unmounted by reflexivity. exact B.
    + rewrite (step_commit s e Hm Hu).
      apply commit_tight; [exact T | apply wiring_handle; assumption].
Qed.

Lemma tight_initial rid u : tight (initial rid u).
Proof.
  split; [reflexivity|]. unfold expected. cbn. now destruct rid.
Qed.

Lemma tight_run es : forall s, tight s -> tight (run s es).
Proof.
  induction es as [|e es IH]; intros s T; [exact T|].
  rewrite room_run_cons. apply IH, step_tight, T.
Qed.

(** In every state the page can reach, the realtime client holds the message
    channel and the member channel of the current room exactly when the page
    is mounted, [isMember] is [true] and there is a room id; otherwise it
    holds nothing. *)
Theorem subscriptions_follow_membership
    (rid : option string) (u : option User) (es : list Event) :
  let s := run (initial rid u) es in
  channels s = expected s
  /\ (forall r, mounted s = true -> isMember s = true -> roomId s = Some r ->
                r <> "" -> channels s = room_channels r).
Proof.
  intros s. pose proof (tight_run es _ (tight_initial rid u)) as [_ E].
  fold s in E. split; [exact E|].
  intros r M I R N. rewrite E. unfold expected. rewrite R, M, I.
  apply String.eqb_neq in N. now rewrite N.
Qed.

Lemma subscriptions_follow_membership_witness :
  let r := {| room_ident := "r1"; room_name := "Algebra"; room_subject := "math";
              room_description := None; room_creator_id := "u2";
              room_max_members := 10; room_created_at := "2024-04-01T00:00:00Z" |} in
  let joined := {| roomData := Fulfilled (Some r); membersData := Fulfilled [];
                   messagesData := Fulfilled [];
                   membershipStatus := Fulfilled true |} in
  let s := run (initial (Some "r1") (Some {| uid := "u1" |}))
               [Mount; SnapshotSettled joined] in
  channels s = room_channels "r1".
Proof.
  intros r joined s.
  destruct (subscriptions_follow_membership (Some "r1") (Some {| uid := "u1" |})
              [Mount; SnapshotSettled joined]) as [_ H].
  apply H; try reflexivity. discriminate.
Defined.

(** *** No subscription is left behind *)

Lemma count_subscribe_removals c l :
  count_if (is_Subscribe c) (map RemoveChannel l) = 0.
Proof. unfold count_if. induction l; cbn; auto. Qed.

Lemma count_remove_subscriptions c l :
  count_if (is_RemoveChannel c) (map Subscribe l) = 0.
Proof. unfold count_if. induction l; cbn; auto. Qed.

Lemma count_subscribe_subscriptions c l :
  count_if (is_Subscribe c) (map Subscribe l) = count_if (channel_eqb c) l.
Proof.
  unfold count_if. induction l as [|x l IH]; cbn; [reflexivity|].
  destruct (channel_eqb c x); cbn; now rewrite IH.
Qed.

Lemma count_remove_removals c l :
  count_if (is_RemoveChannel c) (map RemoveChannel l) = count_if (channel_eqb c) l.
Proof.
  unfold count_if. induction l as [|x l IH]; cbn; [reflexivity|].
  destruct (channel_eqb c x); cbn; now rewrite IH.
Qed.

Lemma balanced_step s e : gate s -> balanced s -> balanced (step s e).
Proof.
  intros G H c. specialize (H c).
  destruct (step_gate s e G) as (_ & [[Hr Hc]|Hw] & _).
  - now rewrite Hr, Hc.
  - unfold rewired in Hw. rewrite Hw, !count_if_append.
    rewrite count_subscribe_removals, count_subscribe_subscriptions,
      count_remove_removals, count_remove_subscriptions. lia.
Qed.

Lemma balanced_run es : forall s, gate s -> balanced s -> balanced (run s es).
Proof.
  induction es as [|e es IH]; intros s G H; [exact H|].
  rewrite room_run_cons. apply IH; [apply (step_gate s e G) | apply balanced_step; assumption].
Qed.

(** Every channel the page ever subscribed has been removed again or is still
    held; once the page is unmounted, every subscription has been matched by a
    removal. *)
Theorem no_subscription_is_left_behind
    (rid : option string) (u : option User) (es : list Event) (c : Channel) :
  let s := run (initial rid u) es in
  count_if (is_Subscribe c) (realtime s)
  = count_if (is_RemoveChannel c) (realtime s) + count_if (channel_eqb c) (channels s)
  /\ (mounted s = false ->
      count_if (is_Subscribe c) (realtime s)
      = count_if (is_RemoveChannel c) (realtime s)).
Proof.
  intros s.
  assert (B : balanced s).
  { apply balanced_run; [apply gate_initial|]. intros c'. reflexivity. }
  split; [apply B|]. intros M. rewrite (B c).
  rewrite (gate_unmounted s (gate_run es _ (gate_initial rid u)) M).
  unfold count_if. cbn. lia.
Qed.

Lemma no_subscription_is_left_behind_witness :
  let r := {| room_ident := "r1"; room_name := "Algebra"; room_subject := "math";
              room_description := None; room_creator_id := "u2";
              room_max_members := 10; room_created_at := "2024-04-01T00:00:00Z" |} in
  let joined := {| roomData := Fulfilled (Some r); membersData := Fulfilled [];
                   messagesData := Fulfilled [];
                   membershipStatus := Fulfilled true |} in
  let s := run (initial (Some "r1") (Some {| uid := "u1" |}))
               [Mount; SnapshotSettled joined; Navigate (Some "r2"); Unmount] in
  count_if (is_Subscribe (MessagesChannel "r1")) (realtime s) = 1
  /\ count_if (is_RemoveChannel (MessagesChannel "r1")) (realtime s) = 1.
Proof.
  intros r joined s.
  destruct (no_subscription_is_left_behind (Some "r1") (Some {| uid := "u1" |})
              [Mount; SnapshotSettled joined; Navigate (Some "r2"); Unmount]
              (MessagesChannel "r1")) as [_ H].
  fold s in H. specialize (H eq_refl).
  assert (E : count_if (is_Subscribe (MessagesChannel "r1")) (realtime s) = 1)
    by (vm_compute; reflexivity).
  split; [exact E | rewrite <- H; exact E].
Defined.

(** *** Who writes the lists *)

Lemma core_lists s s' :
  core s' = core s ->
  messages s' = messages s /\ members s' = members s /\ user s' = user s
  /\ room s' = room s /\ newMessage s' = newMessage s
  /\ sendingMessage s' = sendingMessage s /\ sent s' = sent s.
Proof. unfold core. intros H. injection H. intros. repeat split; assumption. Qed.

Lemma step_core s e :
  is_Mount e = false -> e <> Unmount -> core (step s e) = core (handle s e).
Proof. intros Hm Hu. rewrite (step_commit s e Hm Hu). apply core_commit. Qed.

Lemma mount_lists s :
  messages (step s Mount) = messages s /\ members (step s Mount) = members s.
Proof.
  cbn [step handle]. destruct (mounted s); [split; reflexivity|].
  destruct (core_lists _ _ (core_effect (loadRoomData_call (s<|mounted := true|>))))
    as (A & B & _).
  destruct (core_lists _ _ (core_load (s<|mounted := true|>))) as (A' & B' & _).
  split; [rewrite A, A' | rewrite B, B']; reflexivity.
Qed.

Lemma unmount_lists s :
  messages (step s Unmount) = messages s /\ members (step s Unmount) = members s.
Proof.
  cbn [step handle]. destruct (mounted s); [|split; reflexivity].
  destruct (core_lists _ _ (core_cleanup s)) as (A & B & _).
  split; [rewrite <- A | rewrite <- B]; reflexivity.
Qed.

Lemma handle_messages s e :
  writes_messages e = false -> messages (handle s e) = messages s.
Proof.
  intros H. destruct e; try discriminate H;
    [ apply (mount_lists s) | apply (unmount_lists s) | .. ];
    cbn [handle]; room_handlers; branches; reflexivity.
Qed.

Lemma handle_members s e :
  writes_members e = false -> members (handle s e) = members s.
Proof.
  intros H. destruct e; try discriminate H;
    [ apply (mount_lists s) | apply (unmount_lists s) | .. ];
    cbn [handle]; room_handlers; branches; reflexivity.
Qed.

Lemma unmount_dec (e : Event) : {e = Unmount} + {e <> Unmount}.
Proof. destruct e; try (right; discriminate). left; reflexivity. Qed.

Lemma step_messages s e :
  writes_messages e = false -> messages (step s e) = messages s.
Proof.
  intros H. destruct e; try discriminate H;
    [ apply mount_lists | apply unmount_lists | .. ];
    match goal with
    | |- messages (step s ?e) = _ =>
        destruct (core_lists _ _ (step_core s e eq_refl ltac:(discriminate)))
          as (A & _);
        rewrite A; apply handle_messages; reflexivity
    end.
Qed.

(** The message list is written by a settled snapshot load and by a settled
    profile lookup of a live message, and by nothing else: sending, uploading,
    joining, leaving, typing and navigating leave it as it is.  The member
    list is written by a settled snapshot load and a settled member reload
    only. *)
Theorem lists_have_two_writers (s : State) (e : Event) :
  (writes_messages e = false -> messages (step s e) = messages s)
  /\ (writes_members e = false -> members (step s e) = members s).
Proof.
  destruct (is_Mount e) eqn:Hm.
  - destruct e; try discriminate Hm. destruct (mount_lists s). auto.
  - destruct (unmount_dec e) as [->|Hu].
    + destruct (unmount_lists s). auto.
    + destruct (core_lists _ _ (step_core s e Hm Hu)) as (A & B & _).
      split; intros H; [rewrite A; apply handle_messages, H
                       | rewrite B; apply handle_members, H].
Qed.

Lemma lists_have_two_writers_witness :
  let s := (initial (Some "r1") (Some {| uid := "u1" |}))
             <|mounted := true|><|newMessage := code_units "hi"|> in
  sent (step s Send) = [("r1", code_units "hi")]
  /\ messages (step (step s Send) (SendSettled (Fulfilled None))) = messages s.
Proof.
  intros s. split; [reflexivity|].
  destruct (lists_have_two_writers (step s Send) (SendSettled (Fulfilled None)))
    as [A _].
  rewrite (A eq_refl).
  destruct (lists_have_two_writers s Send) as [B _]. exact (B eq_refl).
Defined.

Lemma core_lookups s s' : core s' = core s -> lookups s' = lookups s.
Proof. unfold core. intros H. injection H. intros. assumption. Qed.

(** Who is waiting for a profile lookup after a step. *)
Lemma step_lookups s e :
  lookups (step s e)
  = match e with
    | MessageInserted m => if delivered s m then lookups s ++ [m] else lookups s
    | LookupSettled n _ =>
        match take_nth n (lookups s) with
        | Some (_, others) => others
        | None => lookups s
        end
    | _ => lookups s
    end.
Proof.
  destruct (is_Mount e) eqn:Hm.
  - destruct e; try discriminate Hm. cbn [step handle].
    destruct (mounted s); [reflexivity|].
    rewrite (core_lookups _ _ (core_effect _)), (core_lookups _ _ (core_load _)).
    reflexivity.
  - destruct (unmount_dec e) as [->|Hu].
    + cbn [step handle]. destruct (mounted s); [|reflexivity].
      transitivity (lookups (subscription_cleanup s));
        [reflexivity | apply core_lookups, core_cleanup].
    + rewrite (core_lookups _ _ (step_core s e Hm Hu)).
      destruct e; try discriminate Hm; try (contradiction Hu; reflexivity);
        cbn [handle]; unfold delivered; room_handlers; branches; reflexivity.
Qed.

Lemma lookup_messages s n r :
  messages (step s (LookupSettled n r))
  = match take_nth n (lookups s) with
    | Some (m, _) => messages s ++ [m<|profile := data r|>]
    | None => messages s
    end.
Proof.
  destruct (core_lists _ _ (step_core s (LookupSettled n r) eq_refl
                              ltac:(discriminate))) as (A & _).
  rewrite A. cbn [handle].
  destruct (take_nth n (lookups s)) as [[m others]|]; reflexivity.
Qed.

(** Between two snapshot loads the message list only grows at its end, by
    the live messages that arrived: after any events other than a settled
    snapshot load, the list is the earlier list followed by the messages
    whose notification came in on a held channel and whose profile lookup
    has settled, in the order in which the lookups settled, each with the
    profile its lookup found. *)
Theorem messages_only_grow (s : State) (es : list Event) :
  existsb is_SnapshotSettled es = false ->
  messages (run s es) = messages s ++ arrived s (lookups s) es.
Proof.
  revert s. induction es as [|e es IH]; intros s H.
  - cbn. now rewrite app_nil_r.
  - cbn [existsb] in H. apply orb_false_iff in H as [He H].
    rewrite room_run_cons, (IH (step s e) H), step_lookups.
    destruct e; try discriminate He; cbn [arrived];
      try (rewrite step_messages by reflexivity; reflexivity).
    rewrite lookup_messages.
    destruct (take_nth n (lookups s)) as [[m others]|]; [|reflexivity].
    now rewrite <- app_assoc.
Qed.

Lemma messages_only_grow_witness :
  let at_ (i t : string) :=
    {| id := i; room_id := "r1"; user_id := "u2"; content := code_units "x";
       created_at := t; profile := None |} in
  let m0 := at_ "7" "2024-05-01T09:00:00Z" in
  let m1 := at_ "8" "2024-05-01T09:01:00Z" in
  let m2 := at_ "9" "2024-05-01T09:02:00Z" in
  let bea := {| full_name := Some "Bea"; avatar_url := None |} in
  let s := (initial (Some "r1") (Some {| uid := "u1" |}))
             <|mounted := true|><|isMember := true|>
             <|unsubscribe := Some (room_channels "r1")|>
             <|channels := room_channels "r1"|>
             <|messages := [m0]|> in
  messages (run s [MessageInserted m1; MessageInserted m2;
                   Typed (code_units "x");
                   LookupSettled 1 {| data := Some bea; response_error := None |};
                   LookupSettled 0 {| data := None; response_error := None |};
                   Unmount])
  = [m0; m2<|profile := Some bea|>; m1].
Proof.
  intros at_ m0 m1 m2 bea s.
  rewrite (messages_only_grow s) by reflexivity. reflexivity.
Defined.

(** *** Joining, and leaving the page *)

Lemma join_steps s r :
  mounted s = true -> roomId s = Some r -> r <> "" ->
  forall outcome,
    let s' := run s [Join; JoinSettled outcome] in
    mounted s' = true /\ roomId s' = Some r
    /\ isMember s' = match outcome with
                     | Fulfilled _ => true
                     | Rejected _ => isMember s
                     end.
Proof.
  intros M R N outcome. apply String.eqb_neq in N.
  assert (H1 : step s Join = s<|joins ::= S|>).
  { unfold step. cbn [handle is_AuthChanged andb]. rewrite M.
    unfold handleJoinRoom_call. rewrite R. cbn [not_id]. rewrite N.
    apply commit_same; reflexivity. }
  cbn [run fold_left]. rewrite H1.
  destruct (core_deps _ _ (step_core (s<|joins ::= S|>) (JoinSettled outcome)
                             eq_refl ltac:(discriminate))) as (A & B & C).
  rewrite A, B, C. cbn [handle].
  change (joins (s<|joins ::= S|>)) with (S (joins s)). cbv iota beta.
  unfold handleJoinRoom_resume, toast_reading_message, toast.
  destruct outcome as [|err]; [|destruct (nullish err)]; repeat split; assumption.
Qed.

(** On a mounted page with a room id, a join that succeeds sets [isMember],
    after which both channels of the room are subscribed and its live
    messages are delivered; a join that fails leaves [isMember] and the
    channels as they were. *)
Theorem joining_opens_the_channels
    (rid : option string) (u : option User) (es : list Event) (r : string) :
  let s := run (initial rid u) es in
  mounted s = true -> roomId s = Some r -> r <> "" ->
  (let s' := run s [Join; JoinSettled (Fulfilled tt)] in
   isMember s' = true /\ channels s' = room_channels r
   /\ forall m, room_id m = r -> delivered s' m = true)
  /\ (forall err,
        let s' := run s [Join; JoinSettled (Rejected err)] in
        isMember s' = isMember s /\ channels s' = channels s).
Proof.
  intros s M R N.
  assert (T : forall es', tight (run s es')).
  { intros es'. unfold s. rewrite <- room_run_app. apply tight_run, tight_initial. }
  assert (E : forall s1, tight s1 -> mounted s1 = true -> roomId s1 = Some r ->
                channels s1 = if isMember s1 then room_channels r else []).
  { intros s1 [_ E1] M1 R1. rewrite E1. unfold expected. rewrite R1, M1.
    apply String.eqb_neq in N. rewrite N. now destruct (isMember s1). }
  split.
  - destruct (join_steps s r M R N (Fulfilled tt)) as (A & B & C).
    intros s'. fold s' in A, B, C.
    pose proof (E s' (T _) A B) as Hc. rewrite C in Hc.
    repeat split; [exact C | exact Hc |].
    intros m Hm. unfold delivered. rewrite Hc, Hm. cbn.
    now rewrite String.eqb_refl.
  - intros err.
    destruct (join_steps s r M R N (Rejected err)) as (A & B & C).
    intros s'. fold s' in A, B, C. split; [exact C|].
    rewrite (E s' (T _) A B), C. symmetry. apply E; [apply (T []) | exact M | exact R].
Qed.

Lemma joining_opens_the_channels_witness :
  let r := {| room_ident := "r1"; room_name := "Algebra"; room_subject := "math";
              room_description := None; room_creator_id := "u2";
              room_max_members := 10; room_created_at := "2024-04-01T00:00:00Z" |} in
  let visitor := {| roomData := Fulfilled (Some r); membersData := Fulfilled [];
                    messagesData := Fulfilled [];
                    membershipStatus := Fulfilled false |} in
  let s := run (initial (Some "r1") (Some {| uid := "u1" |}))
               [Mount; SnapshotSettled visitor] in
  channels s = []
  /\ channels (run s [Join; JoinSettled (Fulfilled tt)]) = room_channels "r1".
Proof.
  intros r visitor s. split; [reflexivity|].
  destruct (joining_opens_the_channels (Some "r1") (Some {| uid := "u1" |})
              [Mount; SnapshotSettled visitor] "r1" eq_refl eq_refl
              ltac:(discriminate)) as [(_ & H & _) _].
  exact H.
Defined.

Lemma mounted_step s e :
  is_Mount e = false -> mounted s = false -> mounted (step s e) = false.
Proof.
  intros Hm M. destruct (unmount_dec e) as [->|Hu].
  - cbn [step handle]. now rewrite M.
  - destruct (core_deps _ _ (step_core s e Hm Hu)) as (_ & _ & A).
    destruct (wiring_eq _ _ (wiring_handle s e Hm Hu)) as (B & _).
    congruence.
Qed.

Lemma mounted_run es : forall s,
  existsb is_Mount es = false -> mounted s = false -> mounted (run s es) = false.
Proof.
  induction es as [|e es IH]; intros s H M; [exact M|].
  cbn [existsb] in H. apply orb_false_iff in H as [He H].
  rewrite room_run_cons. apply IH; [exact H | apply mounted_step; assumption].
Qed.

Lemma unmount_unmounts s : mounted (step s Unmount) = false.
Proof.
  cbn [step handle]. destruct (mounted s) eqn:M; [reflexivity | exact M].
Qed.

(** Once the page is unmounted (the user left the room and was sent home, or
    navigated away) it holds no channel, and until it is mounted again a
    message or member notification changes nothing. *)
Theorem unmounted_page_hears_nothing
    (rid : option string) (u : option User) (es es' : list Event) :
  existsb is_Mount es' = false ->
  let s := run (initial rid u) (es ++ Unmount :: es') in
  mounted s = false /\ channels s = []
  /\ (forall m, step s (MessageInserted m) = s)
  /\ (forall r, step s (MembersChanged r) = s).
Proof.
  intros H s.
  assert (M : mounted s = false).
  { unfold s. rewrite room_run_app, room_run_cons.
    apply mounted_run; [exact H | apply unmount_unmounts]. }
  assert (C : channels s = []).
  { apply gate_unmounted; [apply gate_run, gate_initial | exact M]. }
  repeat split; try assumption.
  - intros m. unfold step. cbn [handle is_AuthChanged andb]. rewrite C. cbn [existsb].
    apply commit_same; reflexivity.
  - intros r. unfold step. cbn [handle is_AuthChanged andb]. rewrite C. cbn [existsb].
    apply commit_same; reflexivity.
Qed.

Lemma unmounted_page_hears_nothing_witness :
  let r := {| room_ident := "r1"; room_name := "Algebra"; room_subject := "math";
              room_description := None; room_creator_id := "u2";
              room_max_members := 10; room_created_at := "2024-04-01T00:00:00Z" |} in
  let joined := {| roomData := Fulfilled (Some r); membersData := Fulfilled [];
                   messagesData := Fulfilled [];
                   membershipStatus := Fulfilled true |} in
  let m := {| id := "9"; room_id := "r1"; user_id := "u2";
              content := code_units "late";
              created_at := "2024-05-01T11:00:00Z"; profile := None |} in
  let s := run (initial (Some "r1") (Some {| uid := "u1" |}))
               ([Mount; SnapshotSettled joined; Leave; LeaveSettled (Fulfilled tt)]
                ++ Unmount :: [Typed (code_units "x")]) in
  navigations s = ["/home"] /\ channels s = [] /\ step s (MessageInserted m) = s.
Proof.
  intros r joined m s. split; [reflexivity|].
  destruct (unmounted_page_hears_nothing (Some "r1") (Some {| uid := "u1" |})
              [Mount; SnapshotSettled joined; Leave; LeaveSettled (Fulfilled tt)]
              [Typed (code_units "x")] eq_refl) as (_ & A & B & _).
  split; [exact A | apply B].
Defined.

(** *** The composer *)

Lemma send_step s r :
  mounted s = true -> roomId s = Some r -> r <> "" ->
  step s Send
  = if send_disabled s then s
    else (sendMessage r (newMessage s) (s<|sendingMessage := true|>))<|sending ::= S|>.
Proof.
  intros M R N. apply String.eqb_neq in N.
  unfold step. cbn [handle is_AuthChanged andb]. rewrite M.
  unfold handleSendMessage_call, send_disabled. rewrite R. cbn [not_id]. rewrite N.
  destruct (sendingMessage s), (not_string (trim (newMessage s))); cbn [orb];
    apply commit_same; reflexivity.
Qed.

(** The send button and the handler agree: on a mounted page with a room id,
    when the button is enabled a click (or Enter) sends exactly the text of
    the box, untrimmed, to the current room and sets [sendingMessage]; when
    the button is disabled, Enter changes nothing. *)
Theorem send_button_matches_handler (s : State) (r : string) :
  mounted s = true -> roomId s = Some r -> r <> "" ->
  (send_disabled s = false ->
     sent (step s Send) = sent s ++ [(r, newMessage s)]
     /\ sendingMessage (step s Send) = true
     /\ newMessage (step s Send) = newMessage s)
  /\ (send_disabled s = true -> step s Send = s).
Proof.
  intros M R N. rewrite (send_step s r M R N).
  split; intros ->; [repeat split | reflexivity].
Qed.

Lemma send_button_matches_handler_witness :
  let s := (initial (Some "r1") (Some {| uid := "u1" |}))
             <|mounted := true|><|newMessage := code_units " hi "|> in
  sent (step s Send) = [("r1", code_units " hi ")]
  /\ step (s<|newMessage := code_units "   "|>) Send = s<|newMessage := code_units "   "|>.
Proof.
  intros s.
  destruct (send_button_matches_handler s "r1" eq_refl eq_refl ltac:(discriminate))
    as [A _].
  assert (M : mounted (s<|newMessage := code_units "   "|>) = true) by reflexivity.
  assert (R : roomId (s<|newMessage := code_units "   "|>) = Some "r1") by reflexivity.
  destruct (send_button_matches_handler (s<|newMessage := code_units "   "|>) "r1"
              M R ltac:(discriminate)) as [_ B].
  split; [apply (A eq_refl) | apply B; reflexivity].
Defined.

Lemma settle_step s res :
  step s (SendSettled res)
  = match sending s with
    | S n => handleSendMessage_resume res (s<|sending := n|>)
    | O => s
    end.
Proof.
  unfold step. cbn [handle is_AuthChanged andb].
  destruct (sending s); apply commit_same; try reflexivity;
    unfold handleSendMessage_resume, toast; cbv zeta;
    destruct res as [[m|]|]; reflexivity.
Qed.

(** A send that fails keeps the text in the box, so sending again repeats it;
    a send that succeeds empties the box, so sending again does nothing. *)
Theorem failed_send_can_be_repeated
    (s : State) (r : string) (res : Settled (option Message)) :
  mounted s = true -> roomId s = Some r -> r <> "" -> send_disabled s = false ->
  let s' := run s [Send; SendSettled res] in
  sendingMessage s' = false
  /\ if send_failed res
     then newMessage s' = newMessage s
          /\ sent (step s' Send) = sent s ++ [(r, newMessage s); (r, newMessage s)]
     else newMessage s' = [] /\ step s' Send = s'.
Proof.
  intros M R N D s'.
  assert (E : s' = handleSendMessage_resume res
                     ((sendMessage r (newMessage s) (s<|sendingMessage := true|>))
                        <|sending := sending s|>)).
  { unfold s'. cbn [run fold_left]. rewrite (send_step s r M R N), D.
    rewrite settle_step. reflexivity. }
  assert (M' : mounted s' = true).
  { rewrite E. unfold handleSendMessage_resume, toast. destruct res as [[m|]|]; exact M. }
  assert (R' : roomId s' = Some r).
  { rewrite E. unfold handleSendMessage_resume, toast. destruct res as [[m|]|]; exact R. }
  apply orb_false_iff in D as [D1 D2].
  rewrite (send_step s' r M' R' N). rewrite E.
  unfold handleSendMessage_resume, toast, send_disabled.
  destruct res as [[m|]|]; cbn [send_failed]; cbv zeta.
  - split; [reflexivity|]. split; reflexivity.
  - split; [reflexivity|]. split; [reflexivity|].
    change (sendingMessage _ || not_string (trim (newMessage _)))
      with (false || not_string (trim (newMessage s))).
    rewrite D2. cbn [orb]. cbn. unfold constant. now rewrite <- app_assoc.
  - split; [reflexivity|]. split; [reflexivity|].
    change (sendingMessage _ || not_string (trim (newMessage _)))
      with (false || not_string (trim (newMessage s))).
    rewrite D2. cbn [orb]. cbn. unfold constant. now rewrite <- app_assoc.
Qed.

Lemma failed_send_can_be_repeated_witness :
  let s := (initial (Some "r1") (Some {| uid := "u1" |}))
             <|mounted := true|><|newMessage := code_units "hi"|> in
  let s' := run s [Send; SendSettled (Rejected (new_Error "Failed to fetch"))] in
  newMessage s' = code_units "hi"
  /\ sent (step s' Send) = [("r1", code_units "hi"); ("r1", code_units "hi")].
Proof.
  intros s s'.
  destruct (failed_send_can_be_repeated s "r1" (Rejected (new_Error "Failed to fetch"))
              eq_refl eq_refl ltac:(discriminate) eq_refl) as [_ H].
  exact H.
Defined.

(** *** Loading *)

Lemma load_without_user s : user s = None -> loadRoomData_call s = s.
Proof.
  intros H. unfold loadRoomData_call. rewrite H. now destruct (not_id (roomId s)).
Qed.

Lemma cleanup_loading s :
  loading (subscription_cleanup s) = loading s
  /\ loads (subscription_cleanup s) = loads s.
Proof. unfold subscription_cleanup. destruct (unsubscribe s); split; reflexivity. Qed.

Lemma effect_loading s :
  loading (subscription_effect s) = loading s
  /\ loads (subscription_effect s) = loads s.
Proof. unfold subscription_effect. branches; split; reflexivity. Qed.

Lemma idle_effects s :
  idle s ->
  idle (subscription_cleanup s) /\ idle (subscription_effect s)
  /\ idle (loadRoomData_call s).
Proof.
  intros [H1 H2 H3 H4].
  destruct (core_lists _ _ (core_cleanup s)) as (_ & _ & A & B & _).
  destruct (core_lists _ _ (core_effect s)) as (_ & _ & A' & B' & _).
  destruct (cleanup_loading s) as [C D]. destruct (effect_loading s) as [C' D'].
  split; [|split]; [| |rewrite (load_without_user s H1)]; split; congruence.
Qed.

Lemma idle_commit uc before after : idle after -> idle (commit uc before after).
Proof.
  intros H. unfold commit; cbv zeta.
  destruct (mounted after); [|exact H].
  assert (K : forall (b : bool) (s : State), idle s -> idle (if b then loadRoomData_call s else s)).
  { intros b s Hs. destruct b; [apply (idle_effects s Hs) | exact Hs]. }
  destruct (negb (same_id (roomId before) (roomId after))
            || negb (Bool.eqb (isMember before) (isMember after))).
  - apply idle_effects, K, idle_effects, H.
  - apply K, H.
Qed.

Lemma idle_handle s e : is_AuthChanged e = false -> idle s -> idle (handle s e).
Proof.
  intros He [H1 H2 H3 H4].
  destruct e; try discriminate He; cbn [handle].
  - destruct (mounted s); [split; assumption|].
    apply idle_effects, idle_effects. split; assumption.
  - destruct (mounted s); [|split; assumption].
    destruct (idle_effects s) as ([A B C D] & _); [split; assumption|].
    split; assumption.
  - destruct (mounted s); split; assumption.
  - rewrite H2. split; assumption.
  - destruct (existsb _ _); split; assumption.
  - destruct (take_nth n (lookups s)) as [[m others]|]; split; assumption.
  - destruct (existsb _ _); split; assumption.
  - destruct (reloads s); [|destruct r]; split; assumption.
  - destruct (mounted s); split; assumption.
  - destruct (mounted s); [|split; assumption].
    unfold handleSendMessage_call, sendMessage. branches; split; assumption.
  - unfold handleSendMessage_resume, toast. cbv zeta.
    destruct (sending s); [|destruct r as [[m|]|]]; split; assumption.
  - destruct (mounted s); [|split; assumption].
    unfold handleFileUpload_call. rewrite H1. branches; split; assumption.
  - unfold handleFileUpload_uploaded, toast_reading_message, sendMessage, toast.
    destruct (take_nth n (uploads s)) as [[rid others]|];
      [destruct r as [[[|c url]|]|err]; try destruct (nullish err)|];
      split; assumption.
  - unfold handleFileUpload_resume, toast_reading_message, toast. cbv zeta.
    destruct (imageSends s);
      [|destruct r as [[m|]|err]; try destruct (nullish err)]; split; assumption.
  - destruct (mounted s); [|split; assumption].
    unfold handleJoinRoom_call. branches; split; assumption.
  - unfold handleJoinRoom_resume, toast_reading_message, toast.
    destruct (joins s); [|destruct r as [|err]; try destruct (nullish err)];
      split; assumption.
  - destruct (mounted s); [|split; assumption].
    unfold handleLeaveRoom_call. branches; split; assumption.
  - unfold handleLeaveRoom_resume, toast, navigate.
    destruct (leaves s); [|destruct r]; split; assumption.
Qed.

Lemma idle_step s e : is_AuthChanged e = false -> idle s -> idle (step s e).
Proof.
  intros He H. pose proof (idle_handle s e He H) as K.
  destruct e; try exact K; apply idle_commit, K.
Qed.

(** Without a signed-in user [loadRoomData] returns at its guard, before the
    [try] whose [finally] would end the loading state: as long as no user
    arrives, the page requests nothing, [loading] stays [true] and the page
    shows its loading screen, whatever else happens. *)
Theorem no_user_no_room (rid : option string) (es : list Event) :
  existsb is_AuthChanged es = false ->
  let s := run (initial rid None) es in
  loads s = 0 /\ loading s = true /\ room s = None /\ screen s = LoadingScreen.
Proof.
  intros H s.
  assert (K : forall s0, idle s0 -> idle (run s0 es)).
  { clear s. induction es as [|e es IH]; intros s0 H0; [exact H0|].
    cbn [existsb] in H. apply orb_false_iff in H as [He H].
    rewrite room_run_cons. apply (IH H), idle_step; assumption. }
  destruct (K (initial rid None)) as [H1 H2 H3 H4]; [split; reflexivity|].
  fold s in H1, H2, H3, H4. unfold screen. rewrite H3. auto.
Qed.

Lemma no_user_no_room_witness :
  let s := run (initial (Some "r1") None)
               [Mount; Join; JoinSettled (Fulfilled tt); Typed (code_units "hi"); Send] in
  loading s = true /\ screen s = LoadingScreen.
Proof.
  intros s.
  destruct (no_user_no_room (Some "r1")
              [Mount; Join; JoinSettled (Fulfilled tt); Typed (code_units "hi"); Send]
              eq_refl) as (_ & A & _ & B).
  split; assumption.
Defined.

(** A first load in which one of the four reads fails, or which finds no
    room, ends on the screen that says the room was not found, with no
    channel subscribed. *)
Theorem failed_load_shows_not_found (rid : string) (u : User) (r : Snapshot) :
  rid <> "" ->
  any_rejected r = true \/ roomData r = Fulfilled None ->
  let s := run (initial (Some rid) (Some u)) [Mount; SnapshotSettled r] in
  screen s = NotFoundScreen /\ loading s = false /\ room s = None
  /\ channels s = [] /\ exists title, toasts s = [title].
Proof.
  intros N Hr s. apply String.eqb_neq in N.
  assert (H1 : step (initial (Some rid) (Some u)) Mount
               = (initial (Some rid) (Some u))<|mounted := true|><|loads := 1|>).
  { cbn [step handle initial mounted]. unfold loadRoomData_call, subscription_effect.
    cbn. unfold constant. rewrite N. cbn. rewrite ?N. reflexivity. }
  unfold s. cbn [run fold_left]. rewrite H1.
  unfold step. cbn [handle is_AuthChanged andb].
  change (loads _) with 1. cbv iota beta.
  unfold loadRoomData_resume.
  destruct (unusable_snapshot r Hr) as [[e He]|(ms & msgs & status & He)];
    rewrite He; rewrite commit_same by reflexivity;
    unfold screen; cbn; eauto 10.
Qed.

Lemma failed_load_shows_not_found_witness :
  let r := {| roomData := Rejected (new_Error "Failed to fetch");
              membersData := Fulfilled []; messagesData := Fulfilled [];
              membershipStatus := Fulfilled true |} in
  let s := run (initial (Some "r1") (Some {| uid := "u1" |})) [Mount; SnapshotSettled r] in
  screen s = NotFoundScreen /\ toasts s = ["Error"].
Proof.
  intros r s.
  destruct (failed_load_shows_not_found "r1" {| uid := "u1" |} r
              ltac:(discriminate) (or_introl eq_refl)) as (A & _).
  split; [exact A | reflexivity].
Defined.

(** *** Rendering *)

Lemma span_prefix pre t :
  forallb (fun c => negb (c =? 41)%N) pre = true ->
  span_not_close (pre ++ 41%N :: t) = (pre, 41%N :: t).
Proof.
  induction pre as [|c pre IH]; intros H; [reflexivity|].
  cbn [forallb] in H. apply andb_true_iff in H as [Hc H].
  apply negb_true_iff in Hc. cbn [app span_not_close].
  now rewrite Hc, (IH H).
Qed.

Lemma includes_image url :
  includes (image_content url) (code_units "[Image]") = true.
Proof. reflexivity. Qed.

Lemma match_image url :
  match_group (image_content url)
  = match span_not_close (url ++ [41%N]) with
    | (c :: taken, _ :: _) => Some (c :: taken)
    | _ => match_group (url ++ [41%N])
    end.
Proof. reflexivity. Qed.

(** What [handleFileUpload] sends, [renderMessage] shows: a message whose
    content is the image template around a URL is rendered as a picture whose
    source is that URL, provided the URL holds no closing parenthesis; a URL
    that holds one is cut off in front of the first. *)
Theorem uploaded_image_is_shown
    (viewer : option User) (m : Message) (url rest : jsstring) :
  url <> [] ->
  forallb (fun c => negb (c =? 41)%N) url = true ->
  content m = image_content url \/ content m = image_content (url ++ 41%N :: rest) ->
  body (renderMessage viewer m) = Picture (Some url).
Proof.
  intros Hn Hc Hm. unfold renderMessage. cbn [body].
  assert (E : exists t, content m = image_content (url ++ t)
                        /\ (url ++ t) ++ [41%N] = url ++ 41%N :: (match t with
                                                                   | [] => []
                                                                   | _ :: t' => t' ++ [41%N]
                                                                   end)
                        /\ (t = [] \/ exists t', t = 41%N :: t')).
  { destruct Hm as [Hm|Hm].
    - exists []. rewrite app_nil_r. auto.
    - exists (41%N :: rest). rewrite <- app_assoc. split; [exact Hm|].
      split; [reflexivity | right; eauto]. }
  destruct E as (t & E1 & E2 & E3). rewrite E1, includes_image, match_image, E2.
  assert (E4 : span_not_close
                 (url ++ 41%N :: match t with [] => [] | _ :: t' => t' ++ [41%N] end)
               = (url, 41%N :: match t with [] => [] | _ :: t' => t' ++ [41%N] end)).
  { apply span_prefix, Hc. }
  rewrite E4. destruct url; [contradiction|reflexivity].
Qed.

Lemma uploaded_image_is_shown_witness :
  let picture (url : string) :=
    {| id := "5"; room_id := "r1"; user_id := "u2";
       content := image_content (code_units url);
       created_at := "2024-05-01T10:00:00Z"; profile := None |} in
  body (renderMessage None (picture "https://cdn.example/a.png"))
  = Picture (Some (code_units "https://cdn.example/a.png"))
  /\ body (renderMessage None (picture "https://cdn.example/a(1).png"))
     = Picture (Some (code_units "https://cdn.example/a(1")).
Proof.
  intros picture. split.
  - apply (uploaded_image_is_shown None _ (code_units "https://cdn.example/a.png") []);
      [discriminate | reflexivity | left; reflexivity].
  - apply (uploaded_image_is_shown None _ (code_units "https://cdn.example/a(1")
             (code_units ".png"));
      [discriminate | reflexivity | right; reflexivity].
Defined.

(** A live message whose profile lookup found no row, or a profile without a
    name, is added to what the page shows as one more bubble at the end; the
    bubble names its sender [Unknown], unless it is the viewer's own message,
    which carries no name. *)
Theorem unnamed_sender_is_unknown
    (s : State) (m : Message) (resp : SingleResponse) (viewer : option User) :
  delivered s m = true ->
  data resp = None \/ (exists p, data resp = Some p /\ full_name p = None) ->
  let s' := run s [MessageInserted m; LookupSettled (List.length (lookups s)) resp] in
  let bubble := renderMessage viewer (m<|profile := data resp|>) in
  map (renderMessage viewer) (messages s')
  = map (renderMessage viewer) (messages s) ++ [bubble]
  /\ sender bubble = (if isOwn bubble then None else Some "Unknown")
  /\ key bubble = id m.
Proof.
  intros Hd Hp s' bubble.
  destruct (insert_then_lookup s m resp Hd) as (Hm & _ & _). fold s' in Hm.
  rewrite Hm, map_app. split; [reflexivity|]. split; [|reflexivity].
  unfold bubble, renderMessage. cbn [sender isOwn].
  change (profile (m<|profile := data resp|>)) with (data resp).
  destruct Hp as [->|(p & -> & ->)]; reflexivity.
Qed.

Lemma unnamed_sender_is_unknown_witness :
  let m := {| id := "43"; room_id := "r1"; user_id := "u9";
              content := code_units "bye";
              created_at := "2024-05-01T10:05:00Z"; profile := None |} in
  let s := (initial (Some "r1") (Some {| uid := "u1" |}))
             <|mounted := true|><|isMember := true|>
             <|unsubscribe := Some (room_channels "r1")|>
             <|channels := room_channels "r1"|> in
  let resp := {| data := None; response_error := None |} in
  map sender
    (map (renderMessage (Some {| uid := "u1" |}))
       (messages (run s [MessageInserted m; LookupSettled 0 resp])))
  = [Some "Unknown"].
Proof.
  intros m s resp.
  destruct (unnamed_sender_is_unknown s m resp (Some {| uid := "u1" |})
              eq_refl (or_introl eq_refl)) as (A & B & _).
  change (List.length (lookups s)) with 0 in A. rewrite A.
  change (messages s) with (@nil Message). cbn [map app].
  reflexivity.
Defined.

(** *** Uploading *)

Lemma core_uploads s s' :
  core s' = core s ->
  uploads s' = uploads s /\ imageSends s' = imageSends s
  /\ uploadingFile s' = uploadingFile s /\ sent s' = sent s.
Proof. unfold core. intros H. injection H. intros. repeat split; assumption. Qed.

Lemma choose_step s r f :
  mounted s = true -> roomId s = Some r -> r <> "" -> user s <> None ->
  step s (FileChosen (Some f))
  = s<|uploadingFile := true|><|uploads ::= fun l => l ++ [r]|>.
Proof.
  intros M R N U. apply String.eqb_neq in N.
  unfold step. cbn [handle is_AuthChanged andb]. rewrite M.
  unfold handleFileUpload_call. rewrite R.
  destruct (user s); [|contradiction]. rewrite N.
  apply commit_same; reflexivity.
Qed.

(** An image is posted to the room in which its file was picked, also when
    the user has moved on to another room before the upload finished; an
    upload that fails, or that returns no URL or an empty one, posts nothing
    and ends the uploading state; and however the image send ends, the
    uploading state ends with it. *)
Theorem image_goes_to_the_room_it_was_picked_in
    (s : State) (r : string) (f : File) (next : option string)
    (up : Settled (option jsstring)) :
  mounted s = true -> roomId s = Some r -> r <> "" -> user s <> None ->
  uploads s = [] ->
  let s' := run s [FileChosen (Some f); Navigate next; UploadSettled 0 up] in
  match up with
  | Fulfilled (Some (c :: url)) =>
      sent s' = sent s ++ [(r, image_content (c :: url))]
      /\ imageSends s' = S (imageSends s)
      /\ forall res, uploadingFile (step s' (ImageSendSettled res)) = false
  | _ => sent s' = sent s /\ uploadingFile s' = false
  end.
Proof.
  intros M R N U E s'.
  set (s1 := s<|uploadingFile := true|><|uploads ::= fun l => l ++ [r]|>).
  set (s2 := step s1 (Navigate next)).
  assert (H2 : uploads s2 = [r] /\ imageSends s2 = imageSends s /\ sent s2 = sent s).
  { destruct (core_uploads _ _ (step_core s1 (Navigate next) eq_refl
                                  ltac:(discriminate))) as (A & B & _ & D).
    fold s2 in A, B, D. rewrite A, B, D. cbn [handle].
    change (mounted s1) with (mounted s). rewrite M.
    change (uploads (s1<|roomId := next|>)) with (uploads s ++ [r]).
    rewrite E. repeat split. }
  destruct H2 as (A & B & D).
  assert (H3 : s' = step s2 (UploadSettled 0 up)).
  { unfold s'. cbn [run fold_left]. now rewrite (choose_step s r f M R N U). }
  destruct (core_uploads _ _ (step_core s2 (UploadSettled 0 up) eq_refl
                                ltac:(discriminate))) as (_ & B' & C' & D').
  rewrite <- H3 in B', C', D'. cbn [handle] in B', C', D'.
  rewrite A in B', C', D'. cbn [take_nth] in B', C', D'.
  unfold handleFileUpload_uploaded, toast_reading_message, sendMessage, toast
    in B', C', D'.
  destruct up as [[[|c url]|]|err]; try destruct (nullish err).
  - split; [rewrite D'; exact D | rewrite C'; reflexivity].
  - split; [rewrite D', <- D; reflexivity|].
    split; [rewrite B', <- B; reflexivity|].
    intros res.
    destruct (core_uploads _ _ (step_core s' (ImageSendSettled res) eq_refl
                                  ltac:(discriminate))) as (_ & _ & C'' & _).
    rewrite C''. cbn [handle]. rewrite B'.
    change (imageSends _) with (S (imageSends s2)). cbv iota beta.
    unfold handleFileUpload_resume, toast_reading_message, toast. cbv zeta.
    destruct res as [[m|]|err]; try destruct (nullish err); reflexivity.
  - split; [rewrite D'; exact D | rewrite C'; reflexivity].
  - split; [rewrite D'; exact D | rewrite C'; reflexivity].
  - split; [rewrite D'; exact D | rewrite C'; reflexivity].
Qed.

Lemma image_goes_to_the_room_it_was_picked_in_witness :
  let s := (initial (Some "r1") (Some {| uid := "u1" |}))<|mounted := true|> in
  let s' := run s [FileChosen (Some {| file_name := "a.png" |});
                   Navigate (Some "r2");
                   UploadSettled 0 (Fulfilled (Some (code_units "https://cdn.example/a.png")))] in
  roomId s' = Some "r2"
  /\ sent s' = [("r1", image_content (code_units "https://cdn.example/a.png"))].
Proof.
  intros s s'. split; [reflexivity|].
  pose proof (image_goes_to_the_room_it_was_picked_in s "r1"
                {| file_name := "a.png" |} (Some "r2")
                (Fulfilled (Some (code_units "https://cdn.example/a.png")))
                eq_refl eq_refl ltac:(discriminate) ltac:(discriminate) eq_refl)
    as H.
  cbv beta iota zeta in H. destruct H as (A & _). exact A.
Defined.

End RoomPageLaws.
